(** * Seat booking for webinars: the [BookSeat] use case

    A shallow embedding of the use case [BookSeat] (use-cases/book-seat.ts),
    of the in-memory webinar repository
    (adapters/webinar-repository.in-memory.ts) and of the four test doubles
    of tests/book-seat.test.ts, followed by the properties of the booking
    workflow.

    Conventions of the embedding:
    - a JavaScript [Date] is its time value, a number of milliseconds, in [Z];
    - [seats] is an integer, in [Z];
    - a promise is a computation over the state of the object it belongs to,
      which settles as [Resolved] or [Rejected]; the state reached is kept
      in both cases, since a [throw] undoes nothing;
    - [new Date()] inside [execute] is the argument [now]. *)

From Stdlib Require Import ZArith List String Bool Lia.
Import ListNotations.

Local Open Scope Z_scope.

(** ** Entities *)

Module User.
Record t : Type := mk { id : string; email : string; password : string }.
End User.

Module Webinar.
Record t : Type := mk {
  id : string;
  organizerId : string;
  title : string;
  startDate : Z;
  endDate : Z;
  seats : Z
}.
End Webinar.

Module Participation.
Record t : Type := mk { userId : string; webinarId : string }.
End Participation.

Record Email : Type := mkEmail { to : string; subject : string; body : string }.

(** ** Exceptions *)

Inductive Exception : Type :=
| Error (message : string)
| UserIsAlreadyRegisteredException
| WebinarDatesTooSoonException
| WebinarTooManySeatsException
| WebinarNotEnoughSeatsException
| EmailNotFoundException.

(** ** Promises *)

Inductive Settled (A : Type) : Type :=
| Resolved (a : A)
| Rejected (e : Exception).

Arguments Resolved {A} a.
Arguments Rejected {A} e.

Definition Async (S A : Type) : Type := S -> Settled A * S.

Definition resolve {S A : Type} (a : A) : Async S A :=
  fun s => (Resolved a, s).

Definition throw {S A : Type} (e : Exception) : Async S A :=
  fun s => (Rejected e, s).

Definition await {S A B : Type} (p : Async S A) (k : A -> Async S B)
  : Async S B :=
  fun s =>
    match p s with
    | (Resolved a, s') => k a s'
    | (Rejected e, s') => (Rejected e, s')
    end.

Notation "x <- p ;; k" := (await p (fun x => k))
  (at level 61, p at next level, right associativity).
Notation "p ;; k" := (await p (fun _ => k))
  (at level 61, right associativity).

(** ** Ports *)

Module IParticipationRepository.
Class t (P : Type) : Type := {
  findByWebinarId : string -> Async P (list Participation.t);
  save : Participation.t -> Async P unit
}.
End IParticipationRepository.

Module IUserRepository.
Class t (U : Type) : Type := {
  findById : string -> Async U (option User.t)
}.
End IUserRepository.

Module IWebinarRepository.
Class t (W : Type) : Type := {
  findById : string -> Async W Webinar.t;
  create : Webinar.t -> Async W unit
}.
End IWebinarRepository.

Module IMailer.
Class t (M : Type) : Type := {
  send : Email -> Async M unit
}.
End IMailer.

(** The methods of the webinar entity that [execute] calls.  The entity file
    is not part of the sources at hand, so the use case is embedded over any
    implementation of the three predicates. *)
Class WebinarRules : Type := {
  isTooSoon : Webinar.t -> Z -> bool;
  hasTooManySeats : Webinar.t -> bool;
  hasNotEnoughSeats : Webinar.t -> bool
}.

(** ** Adapters and test doubles

    Each class is the record of its fields; a method is a computation over
    that record. *)

(** adapters/webinar-repository.in-memory.ts *)
Record InMemoryWebinarRepository : Type :=
  mkInMemoryWebinarRepository { database : list Webinar.t }.

Definition InMemory_findById (webinarId : string)
  : Async InMemoryWebinarRepository Webinar.t :=
  fun this =>
    match find (fun webinar => String.eqb (Webinar.id webinar) webinarId)
               (database this) with
    | Some webinar => (Resolved webinar, this)
    | None => (Rejected (Error "Webinar not found."), this)
    end.

Definition InMemory_create (webinar : Webinar.t)
  : Async InMemoryWebinarRepository unit :=
  fun this =>
    (Resolved tt, mkInMemoryWebinarRepository (database this ++ [webinar])).

#[export] Instance InMemoryWebinarRepository_port
  : IWebinarRepository.t InMemoryWebinarRepository :=
  {| IWebinarRepository.findById := InMemory_findById;
     IWebinarRepository.create := InMemory_create |}.

(** tests/book-seat.test.ts, [FakeWebinarRepository]; [addWebinar] does what
    [create] does. *)
Record FakeWebinarRepository : Type :=
  mkFakeWebinarRepository { webinars : list Webinar.t }.

Definition FakeWebinar_findById (webinarId : string)
  : Async FakeWebinarRepository Webinar.t :=
  fun this =>
    match find (fun webinar => String.eqb (Webinar.id webinar) webinarId)
               (webinars this) with
    | Some webinar => (Resolved webinar, this)
    | None => (Rejected (Error "Webinar not found"), this)
    end.

Definition FakeWebinar_create (webinar : Webinar.t)
  : Async FakeWebinarRepository unit :=
  fun this =>
    (Resolved tt, mkFakeWebinarRepository (webinars this ++ [webinar])).

#[export] Instance FakeWebinarRepository_port
  : IWebinarRepository.t FakeWebinarRepository :=
  {| IWebinarRepository.findById := FakeWebinar_findById;
     IWebinarRepository.create := FakeWebinar_create |}.

(** tests/book-seat.test.ts, [FakeParticipationRepository] *)
Record FakeParticipationRepository : Type :=
  mkFakeParticipationRepository { participations : list Participation.t }.

Definition FakeParticipation_findByWebinarId (webinarId : string)
  : Async FakeParticipationRepository (list Participation.t) :=
  fun this =>
    (Resolved
       (filter (fun p => String.eqb (Participation.webinarId p) webinarId)
               (participations this)),
     this).

Definition FakeParticipation_save (participation : Participation.t)
  : Async FakeParticipationRepository unit :=
  fun this =>
    (Resolved tt,
     mkFakeParticipationRepository (participations this ++ [participation])).

#[export] Instance FakeParticipationRepository_port
  : IParticipationRepository.t FakeParticipationRepository :=
  {| IParticipationRepository.findByWebinarId :=
       FakeParticipation_findByWebinarId;
     IParticipationRepository.save := FakeParticipation_save |}.

(** tests/book-seat.test.ts, [FakeUserRepository]: [find(...) || null]. *)
Record FakeUserRepository : Type :=
  mkFakeUserRepository { users : list User.t }.

Definition FakeUser_findById (userId : string)
  : Async FakeUserRepository (option User.t) :=
  fun this =>
    (Resolved (find (fun user => String.eqb (User.id user) userId)
                    (users this)),
     this).

Definition addUser (user : User.t) (this : FakeUserRepository)
  : FakeUserRepository :=
  mkFakeUserRepository (users this ++ [user]).

#[export] Instance FakeUserRepository_port
  : IUserRepository.t FakeUserRepository :=
  {| IUserRepository.findById := FakeUser_findById |}.

(** tests/book-seat.test.ts, [FakeMailer] *)
Record FakeMailer : Type := mkFakeMailer { emails : list Email }.

Definition FakeMailer_send (email : Email) : Async FakeMailer unit :=
  fun this => (Resolved tt, mkFakeMailer (emails this ++ [email])).

Definition getEmails (this : FakeMailer) : list Email := emails this.

#[export] Instance FakeMailer_port : IMailer.t FakeMailer :=
  {| IMailer.send := FakeMailer_send |}.

(** ** The use case *)

Record Request : Type := mkRequest { webinarId : string; user : User.t }.

Record Response : Type := mkResponse { success : bool; message : string }.

(** The four private fields of the class [BookSeat]. *)
Record BookSeat (P U W M : Type) : Type := mkBookSeat {
  participationRepository : P;
  userRepository : U;
  webinarRepository : W;
  mailer : M
}.

Arguments mkBookSeat {P U W M} _ _ _ _.
Arguments participationRepository {P U W M} _.
Arguments userRepository {P U W M} _.
Arguments webinarRepository {P U W M} _.
Arguments mailer {P U W M} _.

(** JavaScript truthiness of a string: only the empty string is falsy. *)
Definition truthy (s : string) : bool := negb (String.eqb s "").

Section UseCase.
Context {P U W M : Type}.
Context {participationPort : IParticipationRepository.t P}
        {userPort : IUserRepository.t U}
        {webinarPort : IWebinarRepository.t W}
        {mailerPort : IMailer.t M}.
Context {rules : WebinarRules}.

(** A call on one of the fields: the call runs on the field's state and
    the field is left in the state the call reached. *)
Definition on_participationRepository {A : Type} (c : Async P A)
  : Async (BookSeat P U W M) A :=
  fun this =>
    let (r, p) := c (participationRepository this) in
    (r, mkBookSeat p (userRepository this) (webinarRepository this)
                   (mailer this)).

Definition on_userRepository {A : Type} (c : Async U A)
  : Async (BookSeat P U W M) A :=
  fun this =>
    let (r, u) := c (userRepository this) in
    (r, mkBookSeat (participationRepository this) u (webinarRepository this)
                   (mailer this)).

Definition on_webinarRepository {A : Type} (c : Async W A)
  : Async (BookSeat P U W M) A :=
  fun this =>
    let (r, w) := c (webinarRepository this) in
    (r, mkBookSeat (participationRepository this) (userRepository this) w
                   (mailer this)).

Definition on_mailer {A : Type} (c : Async M A)
  : Async (BookSeat P U W M) A :=
  fun this =>
    let (r, m) := c (mailer this) in
    (r, mkBookSeat (participationRepository this) (userRepository this)
                   (webinarRepository this) m).

(** [organizer?.props.email] is falsy when the organizer is [null] and
    when the address is the empty string. *)
Definition sendEmailToOrganizer (webinar : Webinar.t) (user : User.t)
  : Async (BookSeat P U W M) unit :=
  organizer <- on_userRepository
                 (IUserRepository.findById (Webinar.organizerId webinar)) ;;
  match organizer with
  | Some organizer =>
      if truthy (User.email organizer) then
        on_mailer
          (IMailer.send
             {| to := User.email organizer;
                subject := "New participant";
                body := String.append "New participant for webinar "
                          (String.append (Webinar.title webinar)
                             (String.append ": " (User.email user))) |})
      else throw EmailNotFoundException
  | None => throw EmailNotFoundException
  end.

Definition execute (now : Z) (request : Request)
  : Async (BookSeat P U W M) Response :=
  let webinarId := webinarId request in
  let user := user request in
  participation <- on_participationRepository
                     (IParticipationRepository.findByWebinarId webinarId) ;;
  webinar <- on_webinarRepository (IWebinarRepository.findById webinarId) ;;
  if existsb (fun p => String.eqb (Participation.userId p) (User.id user))
             participation
  then throw UserIsAlreadyRegisteredException
  else if isTooSoon webinar now
  then throw WebinarDatesTooSoonException
  else if hasTooManySeats webinar
  then throw WebinarTooManySeatsException
  else if hasNotEnoughSeats webinar
  then throw WebinarNotEnoughSeatsException
  else
    let newParticipation :=
      {| Participation.userId := User.id user;
         Participation.webinarId := webinarId |} in
    on_participationRepository
      (IParticipationRepository.save newParticipation) ;;
    sendEmailToOrganizer webinar user ;;
    resolve {| success := true; message := "User registered successfully" |}.

End UseCase.

(** ** The webinar entity *)

(** Modelled from the spec: the minimum lead time of the webinar entity
    (entities/webinar.entity.ts), which is not among the sources; 3 days,
    in milliseconds. *)
Definition minimumLeadTime : Z := 3 * 24 * 60 * 60 * 1000.

(** Modelled from the spec: [isTooSoon] of the webinar entity, which is not
    among the sources; true when the gap between [now] and the start time is
    strictly less than the minimum lead time. *)
Definition spec_isTooSoon (webinar : Webinar.t) (now : Z) : bool :=
  Webinar.startDate webinar - now <? minimumLeadTime.

(** Modelled from the spec: [hasTooManySeats] of the webinar entity, which
    is not among the sources; true when the seat capacity exceeds 1000. *)
Definition spec_hasTooManySeats (webinar : Webinar.t) : bool :=
  1000 <? Webinar.seats webinar.

(** Modelled from the spec: [hasNotEnoughSeats] of the webinar entity,
    which is not among the sources; true when the seat capacity is less
    than 1. *)
Definition spec_hasNotEnoughSeats (webinar : Webinar.t) : bool :=
  Webinar.seats webinar <? 1.

(** Modelled from the spec: the webinar entity, which is not among the
    sources, with the three predicates above as its methods. *)
Definition SpecWebinarRules : WebinarRules :=
  {| isTooSoon := spec_isTooSoon;
     hasTooManySeats := spec_hasTooManySeats;
     hasNotEnoughSeats := spec_hasNotEnoughSeats |}.

(** ** The use case over the test doubles *)

(** The object built in the test's [beforeEach], with the in-memory
    webinar repository of the adapters. *)
Definition World : Type :=
  BookSeat FakeParticipationRepository FakeUserRepository
           InMemoryWebinarRepository FakeMailer.

(** What line 41 of book-seat.ts computes over the double's store: is there
    a participation of the webinar whose user is [userId]? *)
Definition alreadyRegistered (store : list Participation.t)
  (webinarId userId : string) : bool :=
  existsb (fun p => String.eqb (Participation.userId p) userId)
    (filter (fun p => String.eqb (Participation.webinarId p) webinarId)
       store).

(** The records of the store for a pair (user id, webinar id). *)
Definition registrationsOf (store : list Participation.t)
  (userId webinarId : string) : list Participation.t :=
  filter (fun p => String.eqb (Participation.userId p) userId
                   && String.eqb (Participation.webinarId p) webinarId)
    store.

Definition newParticipationOf (request : Request) : Participation.t :=
  {| Participation.userId := User.id (user request);
     Participation.webinarId := webinarId request |}.

Definition notificationOf (organizer : User.t) (webinar : Webinar.t)
  (user : User.t) : Email :=
  {| to := User.email organizer;
     subject := "New participant";
     body := String.append "New participant for webinar "
               (String.append (Webinar.title webinar)
                  (String.append ": " (User.email user))) |}.

Definition registered : Response :=
  {| success := true; message := "User registered successfully" |}.

Definition lookupWebinar (this : InMemoryWebinarRepository)
  (webinarId : string) : option Webinar.t :=
  find (fun webinar => String.eqb (Webinar.id webinar) webinarId)
       (database this).

Definition lookupUser (this : FakeUserRepository) (userId : string)
  : option User.t :=
  find (fun user => String.eqb (User.id user) userId) (users this).

(** The state of the use case once a participation was saved. *)
Definition withSaved {W M : Type} (p : Participation.t)
  (this : BookSeat FakeParticipationRepository FakeUserRepository W M)
  : BookSeat FakeParticipationRepository FakeUserRepository W M :=
  mkBookSeat
    (mkFakeParticipationRepository
       (participations (participationRepository this) ++ [p]))
    (userRepository this) (webinarRepository this) (mailer this).

Definition withWebinarRepository {P U W M : Type} (w : W)
  (this : BookSeat P U W M) : BookSeat P U W M :=
  mkBookSeat (participationRepository this) (userRepository this) w
             (mailer this).

Definition withMailer {P U W M : Type} (m : M)
  (this : BookSeat P U W M) : BookSeat P U W M :=
  mkBookSeat (participationRepository this) (userRepository this)
             (webinarRepository this) m.

(** The number of participations that the store holds for a webinar. *)
Definition occupancy (store : list Participation.t) (webinarId : string)
  : Z :=
  Z.of_nat
    (List.length
       (filter (fun p => String.eqb (Participation.webinarId p) webinarId)
               store)).

(** ** Fixtures of tests/book-seat.test.ts *)

Definition day : Z := 24 * 60 * 60 * 1000.

(** The value of [Date.now()] in the fixtures. *)
Definition today : Z := 1700000000000.

Definition webinar1 (startsIn : Z) (seats : Z) : Webinar.t :=
  {| Webinar.id := "webinar1";
     Webinar.organizerId := "organizer1";
     Webinar.title := "Webinar Test";
     Webinar.startDate := today + startsIn;
     Webinar.endDate := today + startsIn + day;
     Webinar.seats := seats |}.

Definition user1 : User.t :=
  {| User.id := "user1"; User.email := "user@example.com";
     User.password := "password" |}.

Definition user2 : User.t :=
  {| User.id := "user2"; User.email := "other@example.com";
     User.password := "password" |}.

Definition organizer1 : User.t :=
  {| User.id := "organizer1"; User.email := "organizer@example.com";
     User.password := "password" |}.

(** An organizer whose address is the empty string. *)
Definition organizerNoEmail : User.t :=
  {| User.id := "organizer1"; User.email := "";
     User.password := "password" |}.

Definition bookWebinar1 (user : User.t) : Request :=
  {| webinarId := "webinar1"; user := user |}.

Definition fixture (store : list Participation.t) (users : list User.t)
  (webinars : list Webinar.t) : World :=
  mkBookSeat (mkFakeParticipationRepository store)
             (mkFakeUserRepository users)
             (mkInMemoryWebinarRepository webinars)
             (mkFakeMailer []).

(** A store where [user1] already has a participation for [webinar1]. *)
Definition user1Registered : list Participation.t :=
  [ {| Participation.userId := "user1";
       Participation.webinarId := "webinar1" |} ].

(** A webinar of one seat, taken by [user2]. *)
Definition fullWebinar : World :=
  fixture [ {| Participation.userId := "user2";
               Participation.webinarId := "webinar1" |} ]
          [organizer1] [webinar1 (4 * day) 1].

(** An implementation of [IMailer] that cannot deliver: every [send] is
    rejected.  It is not a class of the repository; it instantiates the
    statements made for any mailer. *)
Record DownMailer : Type := mkDownMailer { attempts : list Email }.

Definition DownMailer_send (email : Email) : Async DownMailer unit :=
  fun this =>
    (Rejected (Error "Mailer unavailable"),
     mkDownMailer (attempts this ++ [email])).

#[export] Instance DownMailer_port : IMailer.t DownMailer :=
  {| IMailer.send := DownMailer_send |}.

(** The use case of the first test, with the mailer that cannot deliver in
    the place of the mailer double. *)
Definition fixtureDownMailer
  : BookSeat FakeParticipationRepository FakeUserRepository
             InMemoryWebinarRepository DownMailer :=
  mkBookSeat (mkFakeParticipationRepository [])
             (mkFakeUserRepository [organizer1])
             (mkInMemoryWebinarRepository [webinar1 (4 * day) 100])
             (mkDownMailer []).

(** tests/book-seat.test.ts, [FakeWebinarRepository.addWebinar]: the push of
    [create], without the promise. *)
Definition addWebinar (webinar : Webinar.t) (this : FakeWebinarRepository)
  : FakeWebinarRepository :=
  mkFakeWebinarRepository (webinars this ++ [webinar]).

(** The use case of the tests, whose webinar repository is the double: the
    same four fields as [this], the webinars of the adapter's database being
    held by a [FakeWebinarRepository]. *)
Definition overFakeWebinarRepository (this : World)
  : BookSeat FakeParticipationRepository FakeUserRepository
             FakeWebinarRepository FakeMailer :=
  mkBookSeat (participationRepository this) (userRepository this)
             (mkFakeWebinarRepository (database (webinarRepository this)))
             (mailer this).

(** * Properties *)

(** ** The steps of [execute], one lemma per stage *)

Section Stages.
Context {W M : Type} `{IWebinarRepository.t W} `{IMailer.t M}.
Context `{WebinarRules}.

Lemma execute_lookup_rejected now request
  (this : BookSeat FakeParticipationRepository FakeUserRepository W M)
  e w' :
  IWebinarRepository.findById (webinarId request) (webinarRepository this)
    = (Rejected e, w') ->
  execute now request this = (Rejected e, withWebinarRepository w' this).
Proof.
  intros Hfind.
  unfold execute, await, on_participationRepository, on_webinarRepository.
  cbn. rewrite Hfind. reflexivity.
Qed.

Lemma sendEmailToOrganizer_steps webinar user
  (this : BookSeat FakeParticipationRepository FakeUserRepository W M) :
  sendEmailToOrganizer webinar user this =
  match lookupUser (userRepository this) (Webinar.organizerId webinar) with
  | Some organizer =>
      if truthy (User.email organizer) then
        match IMailer.send (notificationOf organizer webinar user)
                           (mailer this) with
        | (r, m') => (r, withMailer m' this)
        end
      else (Rejected EmailNotFoundException, this)
  | None => (Rejected EmailNotFoundException, this)
  end.
Proof.
  unfold sendEmailToOrganizer, await, on_userRepository, on_mailer, lookupUser.
  destruct this as [ps us w m]. cbn.
  destruct (find _ (users us)) as [organizer|]; [|destruct us; reflexivity].
  destruct (truthy (User.email organizer)); [|destruct us; reflexivity].
  unfold notificationOf, withMailer. cbn.
  destruct (IMailer.send _ m) as [r m']. destruct us; reflexivity.
Qed.

Lemma execute_lookup_resolved now request
  (this : BookSeat FakeParticipationRepository FakeUserRepository W M)
  webinar w' :
  IWebinarRepository.findById (webinarId request) (webinarRepository this)
    = (Resolved webinar, w') ->
  execute now request this =
  let this' := withWebinarRepository w' this in
  if alreadyRegistered (participations (participationRepository this))
       (webinarId request) (User.id (user request))
  then (Rejected UserIsAlreadyRegisteredException, this')
  else if isTooSoon webinar now
  then (Rejected WebinarDatesTooSoonException, this')
  else if hasTooManySeats webinar
  then (Rejected WebinarTooManySeatsException, this')
  else if hasNotEnoughSeats webinar
  then (Rejected WebinarNotEnoughSeatsException, this')
  else
    match sendEmailToOrganizer webinar (user request)
            (withSaved (newParticipationOf request) this') with
    | (Resolved _, this'') => (Resolved registered, this'')
    | (Rejected e, this'') => (Rejected e, this'')
    end.
Proof.
  intros Hfind.
  unfold execute, await, on_participationRepository, on_webinarRepository.
  destruct this as [[ps] us w m]. cbn in *. rewrite Hfind.
  unfold alreadyRegistered, withWebinarRepository. cbn.
  destruct (existsb _ _); [reflexivity|].
  destruct (isTooSoon webinar now); [reflexivity|].
  destruct (hasTooManySeats webinar); [reflexivity|].
  destruct (hasNotEnoughSeats webinar); [reflexivity|].
  reflexivity.
Qed.

End Stages.

(** ** The adapters *)

Lemma truthy_true (s : string) : truthy s = true <-> s <> EmptyString.
Proof.
  unfold truthy. rewrite negb_true_iff. split.
  - intros E ->. discriminate.
  - intros N. destruct s; [contradiction | reflexivity].
Qed.

Lemma truthy_false (s : string) : truthy s = false <-> s = EmptyString.
Proof.
  unfold truthy. rewrite negb_false_iff. apply String.eqb_eq.
Qed.

Lemma InMemory_findById_found this webinarId webinar :
  lookupWebinar this webinarId = Some webinar ->
  InMemory_findById webinarId this = (Resolved webinar, this).
Proof. unfold lookupWebinar, InMemory_findById. now intros ->. Qed.

Lemma InMemory_findById_absent this webinarId :
  lookupWebinar this webinarId = None ->
  InMemory_findById webinarId this
    = (Rejected (Error "Webinar not found."), this).
Proof. unfold lookupWebinar, InMemory_findById. now intros ->. Qed.

(** The helpers [lookupUser] and [alreadyRegistered] are what the doubles
    answer and what line 41 of book-seat.ts computes from the answer. *)
Lemma FakeUser_findById_lookup this userId :
  FakeUser_findById userId this = (Resolved (lookupUser this userId), this).
Proof. reflexivity. Qed.

Lemma FakeParticipation_findByWebinarId_some this webinarId userId :
  FakeParticipation_findByWebinarId webinarId this
  = (Resolved
       (filter (fun p => String.eqb (Participation.webinarId p) webinarId)
               (participations this)), this)
  /\ alreadyRegistered (participations this) webinarId userId
     = existsb (fun p => String.eqb (Participation.userId p) userId)
         (filter (fun p => String.eqb (Participation.webinarId p) webinarId)
                 (participations this)).
Proof. split; reflexivity. Qed.

(** A webinar that [findById] returns carries the identifier asked for. *)
Lemma lookupWebinar_id this webinarId webinar :
  lookupWebinar this webinarId = Some webinar ->
  Webinar.id webinar = webinarId.
Proof.
  unfold lookupWebinar. intros Hfind.
  apply find_some in Hfind. now apply String.eqb_eq.
Qed.

(** The test double agrees with the adapter on every webinar found; the two
    differ by the full stop of the message only. *)
Lemma FakeWebinar_findById_found this webinarId webinar :
  lookupWebinar (mkInMemoryWebinarRepository (webinars this)) webinarId
    = Some webinar ->
  FakeWebinar_findById webinarId this = (Resolved webinar, this).
Proof. unfold lookupWebinar, FakeWebinar_findById. cbn. now intros ->. Qed.

Lemma FakeWebinar_findById_absent this webinarId :
  lookupWebinar (mkInMemoryWebinarRepository (webinars this)) webinarId
    = None ->
  FakeWebinar_findById webinarId this
    = (Rejected (Error "Webinar not found"), this).
Proof. unfold lookupWebinar, FakeWebinar_findById. cbn. now intros ->. Qed.

(** ** The store of participations *)

Lemma alreadyRegistered_false_no_record store webinarId userId :
  alreadyRegistered store webinarId userId = false ->
  registrationsOf store userId webinarId = [].
Proof.
  unfold alreadyRegistered, registrationsOf.
  induction store as [|p store IH]; cbn; [reflexivity|].
  destruct (String.eqb (Participation.webinarId p) webinarId); cbn.
  - destruct (String.eqb (Participation.userId p) userId); cbn.
    + discriminate.
    + exact IH.
  - rewrite andb_false_r. exact IH.
Qed.

Lemma alreadyRegistered_true_record store webinarId userId :
  alreadyRegistered store webinarId userId = true ->
  registrationsOf store userId webinarId <> [].
Proof.
  unfold alreadyRegistered, registrationsOf.
  induction store as [|p store IH]; cbn; [discriminate|].
  destruct (String.eqb (Participation.webinarId p) webinarId); cbn.
  - destruct (String.eqb (Participation.userId p) userId); cbn.
    + discriminate.
    + exact IH.
  - rewrite andb_false_r. exact IH.
Qed.

Lemma registrationsOf_saved store request :
  registrationsOf (store ++ [newParticipationOf request])
    (User.id (user request)) (webinarId request)
  = registrationsOf store (User.id (user request)) (webinarId request)
    ++ [newParticipationOf request].
Proof.
  unfold registrationsOf. rewrite filter_app. cbn.
  now rewrite !String.eqb_refl.
Qed.

(** ** [execute] over the doubles and the in-memory adapter *)

Section InMemory.
Context {M : Type} `{IMailer.t M}.
Context `{WebinarRules}.

Lemma withWebinarRepository_same
  (this : BookSeat FakeParticipationRepository FakeUserRepository
                   InMemoryWebinarRepository M) :
  withWebinarRepository (webinarRepository this) this = this.
Proof. now destruct this. Qed.

Lemma execute_absent now request
  (this : BookSeat FakeParticipationRepository FakeUserRepository
                   InMemoryWebinarRepository M) :
  lookupWebinar (webinarRepository this) (webinarId request) = None ->
  execute now request this = (Rejected (Error "Webinar not found."), this).
Proof.
  intros Hfind.
  rewrite (execute_lookup_rejected now request this
             (Error "Webinar not found.") (webinarRepository this)).
  - apply f_equal, withWebinarRepository_same.
  - now apply InMemory_findById_absent.
Qed.

Lemma execute_found now request webinar
  (this : BookSeat FakeParticipationRepository FakeUserRepository
                   InMemoryWebinarRepository M) :
  lookupWebinar (webinarRepository this) (webinarId request) = Some webinar ->
  execute now request this =
  if alreadyRegistered (participations (participationRepository this))
       (webinarId request) (User.id (user request))
  then (Rejected UserIsAlreadyRegisteredException, this)
  else if isTooSoon webinar now
  then (Rejected WebinarDatesTooSoonException, this)
  else if hasTooManySeats webinar
  then (Rejected WebinarTooManySeatsException, this)
  else if hasNotEnoughSeats webinar
  then (Rejected WebinarNotEnoughSeatsException, this)
  else
    match lookupUser (userRepository this) (Webinar.organizerId webinar) with
    | Some organizer =>
        if truthy (User.email organizer) then
          match IMailer.send
                  (notificationOf organizer webinar (user request))
                  (mailer this) with
          | (Resolved _, m') =>
              (Resolved registered,
               withMailer m' (withSaved (newParticipationOf request) this))
          | (Rejected e, m') =>
              (Rejected e,
               withMailer m' (withSaved (newParticipationOf request) this))
          end
        else (Rejected EmailNotFoundException,
              withSaved (newParticipationOf request) this)
    | None => (Rejected EmailNotFoundException,
               withSaved (newParticipationOf request) this)
    end.
Proof.
  intros Hfind.
  rewrite (execute_lookup_resolved now request this webinar
             (webinarRepository this))
    by now apply InMemory_findById_found.
  cbv zeta. rewrite withWebinarRepository_same.
  rewrite sendEmailToOrganizer_steps.
  change (userRepository (withSaved (newParticipationOf request) this))
    with (userRepository this).
  change (mailer (withSaved (newParticipationOf request) this))
    with (mailer this).
  repeat match goal with
         | |- context [if ?b then _ else _] => destruct b; try reflexivity
         end.
  destruct (lookupUser _ _) as [organizer|]; [|reflexivity].
  destruct (truthy _); [|reflexivity].
  destruct (IMailer.send _ _) as [[[]|e] m']; reflexivity.
Qed.

End InMemory.

(** ** The tests of tests/book-seat.test.ts *)

(** The first test of the file: four days ahead, 100 seats. *)
Example should_register_a_user_successfully :
  let this := fixture [] [organizer1] [webinar1 (4 * day) 100] in
  let (result, this') :=
    execute (rules := SpecWebinarRules) today (bookWebinar1 user1) this in
  result = Resolved {| success := true;
                       message := "User registered successfully" |}
  /\ getEmails (mailer this')
     = [ {| to := "organizer@example.com";
            subject := "New participant";
            body := "New participant for webinar Webinar Test: user@example.com" |} ].
Proof. vm_compute. split; reflexivity. Qed.

Example should_throw_if_the_user_is_already_registered :
  fst (execute (rules := SpecWebinarRules) today (bookWebinar1 user1)
         (fixture user1Registered [] [webinar1 (4 * day) 100]))
  = Rejected UserIsAlreadyRegisteredException.
Proof. reflexivity. Qed.

Example should_throw_if_the_webinar_starts_in_less_than_3_days :
  fst (execute (rules := SpecWebinarRules) today (bookWebinar1 user1)
         (fixture [] [] [webinar1 (2 * day) 100]))
  = Rejected WebinarDatesTooSoonException.
Proof. reflexivity. Qed.

Example should_throw_if_the_webinar_has_more_than_1000_seats :
  fst (execute (rules := SpecWebinarRules) today (bookWebinar1 user1)
         (fixture [] [] [webinar1 (4 * day) 1500]))
  = Rejected WebinarTooManySeatsException.
Proof. reflexivity. Qed.

Example should_throw_if_the_webinar_has_less_than_1_seat :
  fst (execute (rules := SpecWebinarRules) today (bookWebinar1 user1)
         (fixture [] [] [webinar1 (4 * day) 0]))
  = Rejected WebinarNotEnoughSeatsException.
Proof. reflexivity. Qed.

Example should_throw_if_the_organizer_email_is_not_found :
  fst (execute (rules := SpecWebinarRules) today (bookWebinar1 user1)
         (fixture [] [] [webinar1 (4 * day) 100]))
  = Rejected EmailNotFoundException.
Proof. reflexivity. Qed.

(** ** Booking twice *)

Lemma alreadyRegistered_saved store request :
  alreadyRegistered (store ++ [newParticipationOf request])
    (webinarId request) (User.id (user request)) = true.
Proof.
  unfold alreadyRegistered. rewrite filter_app, existsb_app. cbn.
  rewrite String.eqb_refl. cbn. rewrite String.eqb_refl. cbn.
  apply orb_true_r.
Qed.

(** Once a call of [execute] went past the save, whether it then resolved
    or was rejected on the way to the organizer, the same request is
    rejected with [UserIsAlreadyRegisteredException] and changes nothing. *)
Lemma second_attempt_is_rejected {rules : WebinarRules}
  (this this' : World) (now later : Z) (request : Request)
  (result : Settled Response) :
  execute now request this = (result, this') ->
  participations (participationRepository this')
    = participations (participationRepository this)
      ++ [newParticipationOf request] ->
  execute later request this'
    = (Rejected UserIsAlreadyRegisteredException, this').
Proof.
  intros Hrun Hsaved.
  destruct (lookupWebinar (webinarRepository this) (webinarId request))
    as [webinar|] eqn:Hw.
  - assert (Hw' : lookupWebinar (webinarRepository this')
                    (webinarId request) = Some webinar).
    { rewrite (execute_found now request webinar this Hw) in Hrun.
      repeat match type of Hrun with
             | (if ?b then _ else _) = _ => destruct b
             | match ?o with Some _ => _ | None => _ end = _ => destruct o
             end;
        inversion Hrun; subst; exact Hw. }
    rewrite (execute_found later request webinar this' Hw').
    now rewrite Hsaved, alreadyRegistered_saved.
  - rewrite (execute_absent now request this Hw) in Hrun.
    inversion Hrun; subst.
    apply (f_equal (@List.length _)) in Hsaved.
    rewrite length_app in Hsaved. cbn in Hsaved. lia.
Qed.

(** ** The booking workflow *)

(** Over the doubles of the tests, whose mailer accepts every email: when
    the webinar exists, the user has no participation for it, the webinar is
    not too soon, its seats are within bounds and the organizer is found
    with a non-empty address, [execute] resolves with the success response,
    the store is the former store followed by the one new participation,
    which is afterwards the only record of its pair, and the mailer holds
    its former emails followed by one email to the organizer's address. *)
Lemma execute_registers_and_notifies_over_doubles {rules : WebinarRules}
  (this : World) (now : Z) (request : Request)
  (webinar : Webinar.t) (organizer : User.t) :
  lookupWebinar (webinarRepository this) (webinarId request) = Some webinar ->
  alreadyRegistered (participations (participationRepository this))
    (webinarId request) (User.id (user request)) = false ->
  isTooSoon webinar now = false ->
  hasTooManySeats webinar = false ->
  hasNotEnoughSeats webinar = false ->
  lookupUser (userRepository this) (Webinar.organizerId webinar)
    = Some organizer ->
  User.email organizer <> EmptyString ->
  exists this' notification,
    execute now request this
      = (Resolved {| success := true;
                     message := "User registered successfully" |}, this')
    /\ participations (participationRepository this')
       = participations (participationRepository this)
         ++ [ {| Participation.userId := User.id (user request);
                 Participation.webinarId := webinarId request |} ]
    /\ registrationsOf (participations (participationRepository this'))
         (User.id (user request)) (webinarId request)
       = [ {| Participation.userId := User.id (user request);
              Participation.webinarId := webinarId request |} ]
    /\ emails (mailer this') = emails (mailer this) ++ [notification]
    /\ to notification = User.email organizer
    /\ subject notification = "New participant"%string
    /\ body notification
       = String.append "New participant for webinar "
           (String.append (Webinar.title webinar)
              (String.append ": " (User.email (user request))))
    /\ userRepository this' = userRepository this
    /\ webinarRepository this' = webinarRepository this.
Proof.
  intros Hw Hreg Hsoon Hmany Hfew Horg Hmail.
  apply truthy_true in Hmail.
  rewrite (execute_found now request webinar this Hw).
  rewrite Hreg, Hsoon, Hmany, Hfew, Horg, Hmail. cbn.
  eexists. exists (notificationOf organizer webinar (user request)).
  split; [reflexivity|]. cbn.
  repeat split.
  change (registrationsOf
            (participations (participationRepository this)
               ++ [newParticipationOf request])
            (User.id (user request)) (webinarId request)
          = [newParticipationOf request]).
  rewrite registrationsOf_saved.
  now rewrite (alreadyRegistered_false_no_record _ _ _ Hreg).
Qed.

(** C1, as the claim states it, fails: the webinar exists, the user has no
    participation for it, the webinar is not too soon, its seats are within
    bounds and the organizer is found with a contact address, and yet, the
    mailer rejecting the email, [execute] does not return the success
    response: it is rejected with the mailer's error, the participation
    being saved all the same. *)
Lemma execute_registers_and_notifies_counterexample :
  lookupWebinar (webinarRepository fixtureDownMailer)
    (webinarId (bookWebinar1 user1))
    = Some (webinar1 (4 * day) 100)
  /\ alreadyRegistered
       (participations (participationRepository fixtureDownMailer))
       (webinarId (bookWebinar1 user1))
       (User.id (user (bookWebinar1 user1))) = false
  /\ isTooSoon (WebinarRules := SpecWebinarRules)
       (webinar1 (4 * day) 100) today = false
  /\ hasTooManySeats (WebinarRules := SpecWebinarRules)
       (webinar1 (4 * day) 100) = false
  /\ hasNotEnoughSeats (WebinarRules := SpecWebinarRules)
       (webinar1 (4 * day) 100) = false
  /\ lookupUser (userRepository fixtureDownMailer)
       (Webinar.organizerId (webinar1 (4 * day) 100)) = Some organizer1
  /\ User.email organizer1 <> EmptyString
  /\ fst (execute (rules := SpecWebinarRules) today (bookWebinar1 user1)
            fixtureDownMailer)
     = Rejected (Error "Mailer unavailable")
  /\ fst (execute (rules := SpecWebinarRules) today (bookWebinar1 user1)
            fixtureDownMailer)
     <> Resolved {| success := true;
                    message := "User registered successfully" |}
  /\ participations
       (participationRepository
          (snd (execute (rules := SpecWebinarRules) today
                  (bookWebinar1 user1) fixtureDownMailer)))
     = [ {| Participation.userId := "user1";
            Participation.webinarId := "webinar1" |} ].
Proof.
  split; [reflexivity|]. split; [reflexivity|]. split; [reflexivity|].
  split; [reflexivity|]. split; [reflexivity|]. split; [reflexivity|].
  split; [discriminate|]. split; [reflexivity|].
  split; [discriminate | reflexivity].
Qed.

(** C1, amended.  For any mailer: when the webinar exists, the user has no
    participation for it, the webinar is not too soon, its seats are within
    bounds, the organizer is found with a non-empty address, and the mailer
    accepts the email ([send] resolves), [execute] resolves with
    [{success: true, message: "User registered successfully"}]; the store is
    the former store followed by the one new participation of the user for
    the webinar, which is afterwards the only record of that pair; and the
    mailer is in the state reached by that one [send], of the email
    addressed to the organizer with subject "New participant".  The two
    lookups are left as they were. *)
Theorem execute_registers_and_notifies
  {M : Type} {mailerPort : IMailer.t M} {rules : WebinarRules}
  (this : BookSeat FakeParticipationRepository FakeUserRepository
                   InMemoryWebinarRepository M)
  (now : Z) (request : Request)
  (webinar : Webinar.t) (organizer : User.t) (sent : unit) (m' : M) :
  lookupWebinar (webinarRepository this) (webinarId request) = Some webinar ->
  alreadyRegistered (participations (participationRepository this))
    (webinarId request) (User.id (user request)) = false ->
  isTooSoon webinar now = false ->
  hasTooManySeats webinar = false ->
  hasNotEnoughSeats webinar = false ->
  lookupUser (userRepository this) (Webinar.organizerId webinar)
    = Some organizer ->
  User.email organizer <> EmptyString ->
  IMailer.send
    {| to := User.email organizer;
       subject := "New participant";
       body := String.append "New participant for webinar "
                 (String.append (Webinar.title webinar)
                    (String.append ": " (User.email (user request)))) |}
    (mailer this) = (Resolved sent, m') ->
  let (result, this') := execute now request this in
  result = Resolved {| success := true;
                       message := "User registered successfully" |}
  /\ participations (participationRepository this')
     = participations (participationRepository this)
       ++ [ {| Participation.userId := User.id (user request);
               Participation.webinarId := webinarId request |} ]
  /\ registrationsOf (participations (participationRepository this'))
       (User.id (user request)) (webinarId request)
     = [ {| Participation.userId := User.id (user request);
            Participation.webinarId := webinarId request |} ]
  /\ mailer this' = m'
  /\ userRepository this' = userRepository this
  /\ webinarRepository this' = webinarRepository this.
Proof.
  intros Hw Hreg Hsoon Hmany Hfew Horg Hmail Hsend.
  apply truthy_true in Hmail.
  rewrite (execute_found now request webinar this Hw).
  rewrite Hreg, Hsoon, Hmany, Hfew, Horg, Hmail.
  unfold notificationOf. rewrite Hsend. cbn.
  repeat split.
  change (registrationsOf
            (participations (participationRepository this)
               ++ [newParticipationOf request])
            (User.id (user request)) (webinarId request)
          = [newParticipationOf request]).
  rewrite registrationsOf_saved.
  now rewrite (alreadyRegistered_false_no_record _ _ _ Hreg).
Qed.

Lemma execute_registers_and_notifies_witness :
  let (result, this') :=
    execute (rules := SpecWebinarRules) today (bookWebinar1 user1)
      (fixture [] [organizer1] [webinar1 (4 * day) 100]) in
  result = Resolved {| success := true;
                       message := "User registered successfully" |}
  /\ participations (participationRepository this')
     = [ {| Participation.userId := "user1";
            Participation.webinarId := "webinar1" |} ]
  /\ registrationsOf (participations (participationRepository this'))
       "user1" "webinar1"
     = [ {| Participation.userId := "user1";
            Participation.webinarId := "webinar1" |} ]
  /\ mailer this'
     = mkFakeMailer
         [ {| to := "organizer@example.com";
              subject := "New participant";
              body := "New participant for webinar Webinar Test: user@example.com" |} ]
  /\ userRepository this' = mkFakeUserRepository [organizer1]
  /\ webinarRepository this'
     = mkInMemoryWebinarRepository [webinar1 (4 * day) 100].
Proof.
  assert (Hmail : User.email organizer1 <> EmptyString) by discriminate.
  exact (@execute_registers_and_notifies FakeMailer _ SpecWebinarRules
           (fixture [] [organizer1] [webinar1 (4 * day) 100])
           today (bookWebinar1 user1) (webinar1 (4 * day) 100) organizer1
           tt
           (mkFakeMailer
              [ {| to := "organizer@example.com";
                   subject := "New participant";
                   body := "New participant for webinar Webinar Test: user@example.com" |} ])
           eq_refl eq_refl eq_refl eq_refl eq_refl eq_refl Hmail eq_refl).
Defined.

(** C2.  In a state whose store holds a participation of the given webinar
    with the requesting user's identifier, [execute] leaves every field of
    the use case as it was, so that no second record of the pair is created;
    and, the given webinar being the one the identifier resolves to, the
    call is rejected with [UserIsAlreadyRegisteredException]. *)
Theorem execute_rejects_duplicate {rules : WebinarRules}
  (this : World) (now : Z) (request : Request) (webinar : Webinar.t) :
  lookupWebinar (webinarRepository this) (webinarId request) = Some webinar ->
  alreadyRegistered (participations (participationRepository this))
    (webinarId request) (User.id (user request)) = true ->
  let (result, this') := execute now request this in
  result = Rejected UserIsAlreadyRegisteredException
  /\ this' = this
  /\ registrationsOf (participations (participationRepository this'))
       (User.id (user request)) (webinarId request)
     = registrationsOf (participations (participationRepository this))
         (User.id (user request)) (webinarId request).
Proof.
  intros Hw Hreg.
  rewrite (execute_found now request webinar this Hw), Hreg.
  repeat split.
Qed.

Lemma execute_rejects_duplicate_witness :
  execute (rules := SpecWebinarRules) today (bookWebinar1 user1)
    (fixture user1Registered [organizer1] [webinar1 (4 * day) 100])
  = (Rejected UserIsAlreadyRegisteredException,
     fixture user1Registered [organizer1] [webinar1 (4 * day) 100]).
Proof.
  pose proof (@execute_rejects_duplicate SpecWebinarRules
                (fixture user1Registered [organizer1]
                         [webinar1 (4 * day) 100])
                today (bookWebinar1 user1) (webinar1 (4 * day) 100)
                eq_refl eq_refl) as Hdup.
  destruct (execute _ _ _) as [result this'].
  destruct Hdup as (-> & -> & _). reflexivity.
Defined.

(** C3.  When the webinar is found and every check before the save passes,
    and the organizer is found: if the organizer's address is empty,
    [execute] is rejected with [EmailNotFoundException] and the store still
    holds the participation saved just before; and, for any mailer, if the
    address is not empty and [send] is rejected with [e], [execute] is
    rejected with [e] and the store still holds that participation. *)
Theorem execute_keeps_registration_on_late_failure
  {M : Type} {mailerPort : IMailer.t M} {rules : WebinarRules}
  (this : BookSeat FakeParticipationRepository FakeUserRepository
                   InMemoryWebinarRepository M)
  (now : Z) (request : Request) (webinar : Webinar.t) (organizer : User.t) :
  lookupWebinar (webinarRepository this) (webinarId request) = Some webinar ->
  alreadyRegistered (participations (participationRepository this))
    (webinarId request) (User.id (user request)) = false ->
  isTooSoon webinar now = false ->
  hasTooManySeats webinar = false ->
  hasNotEnoughSeats webinar = false ->
  lookupUser (userRepository this) (Webinar.organizerId webinar)
    = Some organizer ->
  let saved :=
    participations (participationRepository this)
      ++ [ {| Participation.userId := User.id (user request);
              Participation.webinarId := webinarId request |} ] in
  (User.email organizer = EmptyString ->
   let (result, this') := execute now request this in
   result = Rejected EmailNotFoundException
   /\ participations (participationRepository this') = saved
   /\ mailer this' = mailer this)
  /\
  (forall (e : Exception) (m' : M),
     User.email organizer <> EmptyString ->
     IMailer.send
       {| to := User.email organizer;
          subject := "New participant";
          body := String.append "New participant for webinar "
                    (String.append (Webinar.title webinar)
                       (String.append ": " (User.email (user request)))) |}
       (mailer this) = (Rejected e, m') ->
     let (result, this') := execute now request this in
     result = Rejected e
     /\ participations (participationRepository this') = saved
     /\ mailer this' = m').
Proof.
  intros Hw Hreg Hsoon Hmany Hfew Horg saved.
  rewrite (execute_found now request webinar this Hw).
  rewrite Hreg, Hsoon, Hmany, Hfew, Horg.
  split.
  - intros Hmail. apply truthy_false in Hmail. rewrite Hmail.
    repeat split.
  - intros e m' Hmail Hsend. apply truthy_true in Hmail. rewrite Hmail.
    unfold notificationOf. rewrite Hsend.
    repeat split.
Qed.

Lemma execute_keeps_registration_on_late_failure_witness :
  (let (result, this') :=
     execute (rules := SpecWebinarRules) today (bookWebinar1 user1)
       (fixture [] [organizerNoEmail] [webinar1 (4 * day) 100]) in
   result = Rejected EmailNotFoundException
   /\ participations (participationRepository this')
      = [ {| Participation.userId := "user1";
             Participation.webinarId := "webinar1" |} ]
   /\ mailer this' = mkFakeMailer [])
  /\
  (let (result, this') :=
     execute (rules := SpecWebinarRules) today (bookWebinar1 user1)
       (mkBookSeat (mkFakeParticipationRepository [])
                   (mkFakeUserRepository [organizer1])
                   (mkInMemoryWebinarRepository [webinar1 (4 * day) 100])
                   (mkDownMailer [])) in
   result = Rejected (Error "Mailer unavailable")
   /\ participations (participationRepository this')
      = [ {| Participation.userId := "user1";
             Participation.webinarId := "webinar1" |} ]
   /\ mailer this'
      = mkDownMailer
          [ {| to := "organizer@example.com";
               subject := "New participant";
               body := "New participant for webinar Webinar Test: user@example.com" |} ]).
Proof.
  split.
  - apply (proj1 (@execute_keeps_registration_on_late_failure FakeMailer _
             SpecWebinarRules
             (fixture [] [organizerNoEmail] [webinar1 (4 * day) 100])
             today (bookWebinar1 user1) (webinar1 (4 * day) 100)
             organizerNoEmail eq_refl eq_refl eq_refl eq_refl eq_refl
             eq_refl)).
    reflexivity.
  - apply (proj2 (@execute_keeps_registration_on_late_failure DownMailer _
             SpecWebinarRules
             (mkBookSeat (mkFakeParticipationRepository [])
                         (mkFakeUserRepository [organizer1])
                         (mkInMemoryWebinarRepository
                            [webinar1 (4 * day) 100])
                         (mkDownMailer []))
             today (bookWebinar1 user1) (webinar1 (4 * day) 100)
             organizer1 eq_refl eq_refl eq_refl eq_refl eq_refl eq_refl)).
    + discriminate.
    + reflexivity.
Defined.

(** C4.  With the entity's predicates as the spec gives them: for a webinar
    that is found and a user not yet registered for it, [execute] is
    rejected with [WebinarDatesTooSoonException] exactly when the start date
    is less than 3 days (3 x 24 h, in milliseconds) after [now]; at exactly
    3 days the webinar is not too soon and the outcome is not that
    exception. *)
Theorem too_soon_exactly_below_three_days
  (this : World) (now : Z) (request : Request) (webinar : Webinar.t) :
  lookupWebinar (webinarRepository this) (webinarId request) = Some webinar ->
  alreadyRegistered (participations (participationRepository this))
    (webinarId request) (User.id (user request)) = false ->
  let result :=
    fst (execute (rules := SpecWebinarRules) now request this) in
  (result = Rejected WebinarDatesTooSoonException
   <-> Webinar.startDate webinar - now < 3 * (24 * 60 * 60 * 1000))
  /\ (Webinar.startDate webinar - now = 3 * (24 * 60 * 60 * 1000) ->
      spec_isTooSoon webinar now = false
      /\ result <> Rejected WebinarDatesTooSoonException).
Proof.
  intros Hw Hreg result. subst result.
  rewrite (execute_found now request webinar this Hw), Hreg.
  cbn [isTooSoon hasTooManySeats hasNotEnoughSeats SpecWebinarRules].
  unfold spec_isTooSoon, minimumLeadTime.
  destruct (Z.ltb_spec (Webinar.startDate webinar - now)
              (3 * 24 * 60 * 60 * 1000)) as [Hlt|Hge].
  - cbn. split; [split; [lia | reflexivity] | lia].
  - assert (Hnot :
      fst (if spec_hasTooManySeats webinar
           then (Rejected WebinarTooManySeatsException, this)
           else if spec_hasNotEnoughSeats webinar
           then (Rejected WebinarNotEnoughSeatsException, this)
           else
             match lookupUser (userRepository this)
                     (Webinar.organizerId webinar) with
             | Some organizer =>
                 if truthy (User.email organizer) then
                   match IMailer.send
                           (notificationOf organizer webinar (user request))
                           (mailer this) with
                   | (Resolved _, m') =>
                       (Resolved registered,
                        withMailer m'
                          (withSaved (newParticipationOf request) this))
                   | (Rejected e, m') =>
                       (Rejected e,
                        withMailer m'
                          (withSaved (newParticipationOf request) this))
                   end
                 else (Rejected EmailNotFoundException,
                       withSaved (newParticipationOf request) this)
             | None => (Rejected EmailNotFoundException,
                        withSaved (newParticipationOf request) this)
             end)
      <> Rejected WebinarDatesTooSoonException).
    { destruct (spec_hasTooManySeats webinar); [discriminate|].
      destruct (spec_hasNotEnoughSeats webinar); [discriminate|].
      destruct (lookupUser _ _) as [organizer|]; [|discriminate].
      destruct (truthy _); discriminate. }
    split; [split; [intros E; now apply Hnot in E | lia] | easy].
Qed.

Lemma too_soon_exactly_below_three_days_witness :
  (fst (execute (rules := SpecWebinarRules) today (bookWebinar1 user1)
          (fixture [] [organizer1] [webinar1 (3 * day - 1) 100]))
   = Rejected WebinarDatesTooSoonException)
  /\ (fst (execute (rules := SpecWebinarRules) today (bookWebinar1 user1)
             (fixture [] [organizer1] [webinar1 (3 * day) 100]))
      <> Rejected WebinarDatesTooSoonException).
Proof.
  split.
  - apply (proj1 (@too_soon_exactly_below_three_days
                    (fixture [] [organizer1] [webinar1 (3 * day - 1) 100])
                    today (bookWebinar1 user1) (webinar1 (3 * day - 1) 100)
                    eq_refl eq_refl)).
    reflexivity.
  - apply (proj2 (@too_soon_exactly_below_three_days
                    (fixture [] [organizer1] [webinar1 (3 * day) 100])
                    today (bookWebinar1 user1) (webinar1 (3 * day) 100)
                    eq_refl eq_refl)).
    reflexivity.
Defined.

(** C5.  With the entity's predicates as the spec gives them: for a webinar
    that is found, a user not yet registered for it, a start date that is
    not too soon and an organizer found with a non-empty address, [execute]
    resolves with the success response when the webinar has 1000 seats and
    when it has 1 seat, is rejected with [WebinarTooManySeatsException] when
    it has 1001 seats and with [WebinarNotEnoughSeatsException] when it has
    0 seats. *)
Theorem capacity_boundaries
  (this : World) (now : Z) (request : Request)
  (webinar : Webinar.t) (organizer : User.t) :
  lookupWebinar (webinarRepository this) (webinarId request) = Some webinar ->
  alreadyRegistered (participations (participationRepository this))
    (webinarId request) (User.id (user request)) = false ->
  spec_isTooSoon webinar now = false ->
  lookupUser (userRepository this) (Webinar.organizerId webinar)
    = Some organizer ->
  User.email organizer <> EmptyString ->
  let result :=
    fst (execute (rules := SpecWebinarRules) now request this) in
  (Webinar.seats webinar = 1000 ->
   result = Resolved {| success := true;
                        message := "User registered successfully" |})
  /\ (Webinar.seats webinar = 1001 ->
      result = Rejected WebinarTooManySeatsException)
  /\ (Webinar.seats webinar = 1 ->
      result = Resolved {| success := true;
                           message := "User registered successfully" |})
  /\ (Webinar.seats webinar = 0 ->
      result = Rejected WebinarNotEnoughSeatsException).
Proof.
  intros Hw Hreg Hsoon Horg Hmail result. subst result.
  apply truthy_true in Hmail.
  rewrite (execute_found now request webinar this Hw), Hreg.
  cbn [isTooSoon hasTooManySeats hasNotEnoughSeats SpecWebinarRules].
  rewrite Hsoon, Horg, Hmail.
  unfold spec_hasTooManySeats, spec_hasNotEnoughSeats.
  repeat split; intros ->; reflexivity.
Qed.

Lemma capacity_boundaries_witness :
  fst (execute (rules := SpecWebinarRules) today (bookWebinar1 user1)
         (fixture [] [organizer1] [webinar1 (4 * day) 1000]))
    = Resolved registered
  /\ fst (execute (rules := SpecWebinarRules) today (bookWebinar1 user1)
            (fixture [] [organizer1] [webinar1 (4 * day) 1001]))
     = Rejected WebinarTooManySeatsException
  /\ fst (execute (rules := SpecWebinarRules) today (bookWebinar1 user1)
            (fixture [] [organizer1] [webinar1 (4 * day) 1]))
     = Resolved registered
  /\ fst (execute (rules := SpecWebinarRules) today (bookWebinar1 user1)
            (fixture [] [organizer1] [webinar1 (4 * day) 0]))
     = Rejected WebinarNotEnoughSeatsException.
Proof.
  assert (Hmail : User.email organizer1 <> EmptyString) by discriminate.
  pose proof (fun seats =>
    @capacity_boundaries
      (fixture [] [organizer1] [webinar1 (4 * day) seats])
      today (bookWebinar1 user1) (webinar1 (4 * day) seats) organizer1
      eq_refl eq_refl eq_refl eq_refl Hmail) as Hcap.
  split; [|split; [|split]].
  - apply (proj1 (Hcap 1000)). reflexivity.
  - apply (proj1 (proj2 (Hcap 1001))). reflexivity.
  - apply (proj1 (proj2 (proj2 (Hcap 1)))). reflexivity.
  - apply (proj2 (proj2 (proj2 (Hcap 0)))). reflexivity.
Defined.

(** C6.  The order of the checks of [execute], for a webinar that is found
    and whatever the predicates of the entity are: a user already registered
    is rejected with [UserIsAlreadyRegisteredException] whatever the dates
    and the seats; otherwise a webinar that is too soon is rejected with
    [WebinarDatesTooSoonException] whatever the seats; otherwise too many
    seats are rejected with [WebinarTooManySeatsException], and otherwise
    not enough seats with [WebinarNotEnoughSeatsException].  With the
    predicates as the spec gives them, no webinar has both too many and not
    enough seats. *)
Theorem validation_order {rules : WebinarRules}
  (this : World) (now : Z) (request : Request) (webinar : Webinar.t) :
  lookupWebinar (webinarRepository this) (webinarId request) = Some webinar ->
  let duplicate :=
    alreadyRegistered (participations (participationRepository this))
      (webinarId request) (User.id (user request)) in
  let result := fst (execute now request this) in
  (duplicate = true -> result = Rejected UserIsAlreadyRegisteredException)
  /\ (duplicate = false -> isTooSoon webinar now = true ->
      result = Rejected WebinarDatesTooSoonException)
  /\ (duplicate = false -> isTooSoon webinar now = false ->
      hasTooManySeats webinar = true ->
      result = Rejected WebinarTooManySeatsException)
  /\ (duplicate = false -> isTooSoon webinar now = false ->
      hasTooManySeats webinar = false -> hasNotEnoughSeats webinar = true ->
      result = Rejected WebinarNotEnoughSeatsException)
  /\ (spec_hasTooManySeats webinar && spec_hasNotEnoughSeats webinar
      = false).
Proof.
  intros Hw duplicate result. subst duplicate result.
  rewrite (execute_found now request webinar this Hw).
  repeat split.
  - now intros ->.
  - now intros -> ->.
  - now intros -> -> ->.
  - now intros -> -> -> ->.
  - unfold spec_hasTooManySeats, spec_hasNotEnoughSeats.
    destruct (Z.ltb_spec 1000 (Webinar.seats webinar));
      destruct (Z.ltb_spec (Webinar.seats webinar) 1);
      try reflexivity; lia.
Qed.

Lemma validation_order_witness :
  fst (execute (rules := SpecWebinarRules) today (bookWebinar1 user1)
         (fixture user1Registered [] [webinar1 (2 * day) 1001]))
    = Rejected UserIsAlreadyRegisteredException
  /\ fst (execute (rules := SpecWebinarRules) today (bookWebinar1 user1)
            (fixture [] [] [webinar1 (2 * day) 1001]))
     = Rejected WebinarDatesTooSoonException
  /\ fst (execute (rules := SpecWebinarRules) today (bookWebinar1 user1)
            (fixture [] [] [webinar1 (4 * day) 1001]))
     = Rejected WebinarTooManySeatsException
  /\ fst (execute (rules := SpecWebinarRules) today (bookWebinar1 user1)
            (fixture [] [] [webinar1 (4 * day) 0]))
     = Rejected WebinarNotEnoughSeatsException.
Proof.
  pose proof (fun store startsIn seats =>
    @validation_order SpecWebinarRules
      (fixture store [] [webinar1 startsIn seats])
      today (bookWebinar1 user1) (webinar1 startsIn seats) eq_refl)
    as Horder.
  split; [|split; [|split]].
  - apply (proj1 (Horder user1Registered (2 * day) 1001)). reflexivity.
  - apply (proj1 (proj2 (Horder [] (2 * day) 1001))); reflexivity.
  - apply (proj1 (proj2 (proj2 (Horder [] (4 * day) 1001)))); reflexivity.
  - apply (proj1 (proj2 (proj2 (proj2 (Horder [] (4 * day) 0)))));
      reflexivity.
Defined.

Lemma occupancy_saved store request :
  occupancy (store ++ [newParticipationOf request]) (webinarId request)
  = occupancy store (webinarId request) + 1.
Proof.
  unfold occupancy. rewrite filter_app. cbn.
  rewrite String.eqb_refl, length_app. cbn. lia.
Qed.

(** C7.  [execute] does not look at how many participations the webinar
    already has: in every state where that number equals the seats of the
    webinar, a user not yet registered, all other conditions of a booking
    being met, is registered all the same, and the webinar then holds one
    participation more than it has seats. *)
Theorem execute_ignores_occupancy {rules : WebinarRules}
  (this : World) (now : Z) (request : Request)
  (webinar : Webinar.t) (organizer : User.t) :
  lookupWebinar (webinarRepository this) (webinarId request) = Some webinar ->
  alreadyRegistered (participations (participationRepository this))
    (webinarId request) (User.id (user request)) = false ->
  isTooSoon webinar now = false ->
  hasTooManySeats webinar = false ->
  hasNotEnoughSeats webinar = false ->
  lookupUser (userRepository this) (Webinar.organizerId webinar)
    = Some organizer ->
  User.email organizer <> EmptyString ->
  occupancy (participations (participationRepository this))
    (webinarId request) = Webinar.seats webinar ->
  let (result, this') := execute now request this in
  result = Resolved {| success := true;
                       message := "User registered successfully" |}
  /\ participations (participationRepository this')
     = participations (participationRepository this)
       ++ [ {| Participation.userId := User.id (user request);
               Participation.webinarId := webinarId request |} ]
  /\ occupancy (participations (participationRepository this'))
       (webinarId request) = Webinar.seats webinar + 1.
Proof.
  intros Hw Hreg Hsoon Hmany Hfew Horg Hmail Hfull.
  apply truthy_true in Hmail.
  rewrite (execute_found now request webinar this Hw).
  rewrite Hreg, Hsoon, Hmany, Hfew, Horg, Hmail. cbn.
  repeat split.
  change (occupancy
            (participations (participationRepository this)
               ++ [newParticipationOf request]) (webinarId request)
          = Webinar.seats webinar + 1).
  now rewrite occupancy_saved, Hfull.
Qed.

Lemma execute_ignores_occupancy_witness :
  occupancy (participations (participationRepository fullWebinar))
    "webinar1" = Webinar.seats (webinar1 (4 * day) 1)
  /\ fst (execute (rules := SpecWebinarRules) today (bookWebinar1 user1)
            fullWebinar)
     = Resolved registered
  /\ occupancy
       (participations
          (participationRepository
             (snd (execute (rules := SpecWebinarRules) today
                     (bookWebinar1 user1) fullWebinar))))
       "webinar1" = 2.
Proof.
  split; [reflexivity|].
  assert (Hmail : User.email organizer1 <> EmptyString) by discriminate.
  pose proof (@execute_ignores_occupancy SpecWebinarRules fullWebinar today
                (bookWebinar1 user1) (webinar1 (4 * day) 1) organizer1
                eq_refl eq_refl eq_refl eq_refl eq_refl eq_refl Hmail
                eq_refl) as Hfull.
  destruct (execute _ _ _) as [result this'].
  destruct Hfull as (Hres & _ & Hocc). split; assumption.
Defined.

(** C8.  For any webinar repository and any mailer: when [findById] is
    rejected with [e] for the identifier of the request, [execute] is
    rejected with that same [e], and the store of participations, the user
    repository and the mailer are as they were.  For the in-memory
    repository, an identifier that no webinar of the database carries is
    rejected with [Error("Webinar not found.")] and nothing changes. *)
Theorem execute_propagates_webinar_not_found :
  (forall (W M : Type) (webinarPort : IWebinarRepository.t W)
          (mailerPort : IMailer.t M) (rules : WebinarRules)
          (this : BookSeat FakeParticipationRepository FakeUserRepository
                           W M)
          (now : Z) (request : Request) (e : Exception) (w' : W),
     IWebinarRepository.findById (webinarId request) (webinarRepository this)
       = (Rejected e, w') ->
     let (result, this') := execute now request this in
     result = Rejected e
     /\ participationRepository this' = participationRepository this
     /\ userRepository this' = userRepository this
     /\ webinarRepository this' = w'
     /\ mailer this' = mailer this)
  /\
  (forall (rules : WebinarRules) (this : World) (now : Z)
          (request : Request),
     lookupWebinar (webinarRepository this) (webinarId request) = None ->
     execute now request this
       = (Rejected (Error "Webinar not found."), this)).
Proof.
  split.
  - intros W M webinarPort mailerPort rules this now request e w' Hfind.
    rewrite (execute_lookup_rejected now request this e w' Hfind).
    repeat split.
  - intros rules this now request Hfind.
    now apply execute_absent.
Qed.

Lemma execute_propagates_webinar_not_found_witness :
  execute (rules := SpecWebinarRules) today (bookWebinar1 user1)
    (fixture [] [organizer1] [])
  = (Rejected (Error "Webinar not found."), fixture [] [organizer1] [])
  /\ (let this :=
        mkBookSeat (mkFakeParticipationRepository [])
                   (mkFakeUserRepository [organizer1])
                   (mkFakeWebinarRepository [])
                   (mkFakeMailer []) in
      let (result, this') :=
        execute (rules := SpecWebinarRules) today (bookWebinar1 user1)
          this in
      result = Rejected (Error "Webinar not found")
      /\ participationRepository this' = participationRepository this
      /\ userRepository this' = userRepository this
      /\ webinarRepository this' = mkFakeWebinarRepository []
      /\ mailer this' = mailer this).
Proof.
  split.
  - apply (proj2 execute_propagates_webinar_not_found SpecWebinarRules
             (fixture [] [organizer1] []) today (bookWebinar1 user1)).
    reflexivity.
  - apply (proj1 execute_propagates_webinar_not_found
             FakeWebinarRepository FakeMailer _ _ SpecWebinarRules
             (mkBookSeat (mkFakeParticipationRepository [])
                         (mkFakeUserRepository [organizer1])
                         (mkFakeWebinarRepository [])
                         (mkFakeMailer []))
             today (bookWebinar1 user1) (Error "Webinar not found")
             (mkFakeWebinarRepository [])).
    reflexivity.
Defined.

(** C9.  When the webinar is found, every check before the save passes and
    the user repository answers [null] for the organizer's identifier,
    [execute] is rejected with [EmailNotFoundException], the participation
    is in the store and no email was sent; and the outcome is the same in
    the state that differs only by a user repository where the organizer
    is found with an empty address. *)
Theorem absent_organizer_is_email_not_found {rules : WebinarRules}
  (this : World) (now : Z) (request : Request) (webinar : Webinar.t) :
  lookupWebinar (webinarRepository this) (webinarId request) = Some webinar ->
  alreadyRegistered (participations (participationRepository this))
    (webinarId request) (User.id (user request)) = false ->
  isTooSoon webinar now = false ->
  hasTooManySeats webinar = false ->
  hasNotEnoughSeats webinar = false ->
  lookupUser (userRepository this) (Webinar.organizerId webinar) = None ->
  let (result, this') := execute now request this in
  result = Rejected EmailNotFoundException
  /\ participations (participationRepository this')
     = participations (participationRepository this)
       ++ [ {| Participation.userId := User.id (user request);
               Participation.webinarId := webinarId request |} ]
  /\ emails (mailer this') = emails (mailer this)
  /\ forall (others : FakeUserRepository) (organizer : User.t),
       lookupUser others (Webinar.organizerId webinar) = Some organizer ->
       User.email organizer = EmptyString ->
       let (result2, this2) :=
         execute now request
           (mkBookSeat (participationRepository this) others
                       (webinarRepository this) (mailer this)) in
       result2 = result
       /\ participationRepository this2 = participationRepository this'
       /\ mailer this2 = mailer this'.
Proof.
  intros Hw Hreg Hsoon Hmany Hfew Horg.
  rewrite (execute_found now request webinar this Hw).
  rewrite Hreg, Hsoon, Hmany, Hfew, Horg.
  repeat split.
  intros others organizer Hother Hmail. apply truthy_false in Hmail.
  rewrite (execute_found now request webinar
             (mkBookSeat (participationRepository this) others
                         (webinarRepository this) (mailer this)) Hw).
  cbn [participationRepository userRepository].
  rewrite Hreg, Hsoon, Hmany, Hfew, Hother, Hmail.
  repeat split.
Qed.

Lemma absent_organizer_is_email_not_found_witness :
  let (result, this') :=
    execute (rules := SpecWebinarRules) today (bookWebinar1 user1)
      (fixture [] [] [webinar1 (4 * day) 100]) in
  result = Rejected EmailNotFoundException
  /\ participations (participationRepository this')
     = [ {| Participation.userId := "user1";
            Participation.webinarId := "webinar1" |} ]
  /\ emails (mailer this') = []
  /\ fst (execute (rules := SpecWebinarRules) today (bookWebinar1 user1)
            (fixture [] [organizerNoEmail] [webinar1 (4 * day) 100]))
     = result.
Proof.
  pose proof (@absent_organizer_is_email_not_found SpecWebinarRules
                (fixture [] [] [webinar1 (4 * day) 100])
                today (bookWebinar1 user1) (webinar1 (4 * day) 100)
                eq_refl eq_refl eq_refl eq_refl eq_refl eq_refl) as Habsent.
  cbv beta iota zeta in Habsent.
  destruct (execute (rules := SpecWebinarRules) today (bookWebinar1 user1)
              (fixture [] [] [webinar1 (4 * day) 100])) as [result this'].
  destruct Habsent as (Hres & Hstore & Hmails & Hsame).
  repeat split; try assumption.
  specialize (Hsame (mkFakeUserRepository [organizerNoEmail])
                organizerNoEmail eq_refl eq_refl).
  change (fst (execute (rules := SpecWebinarRules) today
                 (bookWebinar1 user1)
                 (mkBookSeat (mkFakeParticipationRepository [])
                    (mkFakeUserRepository [organizerNoEmail])
                    (mkInMemoryWebinarRepository [webinar1 (4 * day) 100])
                    (mkFakeMailer []))) = result).
  destruct (execute _ _ _) as [result2 this2].
  exact (proj1 Hsame).
Defined.

(** C10.  An execution that is rejected with the error of the webinar
    lookup, [UserIsAlreadyRegisteredException],
    [WebinarDatesTooSoonException], [WebinarTooManySeatsException] or
    [WebinarNotEnoughSeatsException] ends in the state it started from:
    no participation was saved and no email was sent. *)
Theorem early_failure_changes_nothing {rules : WebinarRules}
  (this this' : World) (now : Z) (request : Request) (e : Exception) :
  execute now request this = (Rejected e, this') ->
  In e [ Error "Webinar not found.";
         UserIsAlreadyRegisteredException;
         WebinarDatesTooSoonException;
         WebinarTooManySeatsException;
         WebinarNotEnoughSeatsException ] ->
  this' = this
  /\ participations (participationRepository this')
     = participations (participationRepository this)
  /\ emails (mailer this') = emails (mailer this).
Proof.
  intros Hrun Hearly.
  assert (Hlate : e <> EmailNotFoundException).
  { intros ->. cbn in Hearly.
    repeat (destruct Hearly as [Hearly|Hearly]; [discriminate|]).
    exact Hearly. }
  enough (this' = this) as -> by repeat split.
  destruct (lookupWebinar (webinarRepository this) (webinarId request))
    as [webinar|] eqn:Hw.
  - rewrite (execute_found now request webinar this Hw) in Hrun.
    destruct (alreadyRegistered _ _ _); [now inversion Hrun|].
    destruct (isTooSoon webinar now); [now inversion Hrun|].
    destruct (hasTooManySeats webinar); [now inversion Hrun|].
    destruct (hasNotEnoughSeats webinar); [now inversion Hrun|].
    destruct (lookupUser _ _) as [organizer|].
    + destruct (truthy _).
      * cbn in Hrun. discriminate.
      * inversion Hrun; subst. contradiction.
    + inversion Hrun; subst. contradiction.
  - rewrite (execute_absent now request this Hw) in Hrun.
    now inversion Hrun.
Qed.

Lemma early_failure_changes_nothing_witness :
  execute (rules := SpecWebinarRules) today (bookWebinar1 user1)
    (fixture [] [organizer1] [webinar1 (2 * day) 100])
  = (Rejected WebinarDatesTooSoonException,
     fixture [] [organizer1] [webinar1 (2 * day) 100])
  /\ (fixture [] [organizer1] [webinar1 (2 * day) 100]
      = fixture [] [organizer1] [webinar1 (2 * day) 100]
      /\ participations
           (participationRepository
              (fixture [] [organizer1] [webinar1 (2 * day) 100]))
         = participations
             (participationRepository
                (fixture [] [organizer1] [webinar1 (2 * day) 100]))
      /\ emails (mailer (fixture [] [organizer1] [webinar1 (2 * day) 100]))
         = emails
             (mailer (fixture [] [organizer1] [webinar1 (2 * day) 100]))).
Proof.
  assert (Hrun :
    execute (rules := SpecWebinarRules) today (bookWebinar1 user1)
      (fixture [] [organizer1] [webinar1 (2 * day) 100])
    = (Rejected WebinarDatesTooSoonException,
       fixture [] [organizer1] [webinar1 (2 * day) 100]))
    by reflexivity.
  split; [exact Hrun|].
  apply (@early_failure_changes_nothing SpecWebinarRules
           (fixture [] [organizer1] [webinar1 (2 * day) 100])
           (fixture [] [organizer1] [webinar1 (2 * day) 100])
           today (bookWebinar1 user1) WebinarDatesTooSoonException Hrun).
  cbn. tauto.
Defined.

(** * Further properties of the adapters and of the use case *)

(** ** The repositories *)

Lemma find_pushed {A : Type} (f : A -> bool) (l : list A) (x : A) :
  find f (l ++ [x])
  = match find f l with
    | Some y => Some y
    | None => if f x then Some x else None
    end.
Proof.
  induction l as [|y l IH]; cbn; [reflexivity|].
  now destruct (f y).
Qed.

(** X1.  [findById] of the in-memory repository never changes the
    repository; it resolves exactly when some webinar of the database
    carries the identifier, with a webinar of the database that carries it,
    and is rejected with [Error("Webinar not found.")] exactly when none
    does. *)
Theorem InMemory_findById_resolves_iff
  (this : InMemoryWebinarRepository) (webinarId : string) :
  snd (InMemory_findById webinarId this) = this
  /\ (forall webinar,
        fst (InMemory_findById webinarId this) = Resolved webinar ->
        In webinar (database this) /\ Webinar.id webinar = webinarId)
  /\ ((exists webinar,
         In webinar (database this) /\ Webinar.id webinar = webinarId)
      <-> exists webinar,
            fst (InMemory_findById webinarId this) = Resolved webinar)
  /\ ((forall webinar,
         In webinar (database this) -> Webinar.id webinar <> webinarId)
      <-> fst (InMemory_findById webinarId this)
          = Rejected (Error "Webinar not found.")).
Proof.
  unfold InMemory_findById.
  destruct (find _ (database this)) as [found|] eqn:Hfind; cbn.
  - pose proof (find_some _ _ Hfind) as [Hin Hid].
    apply String.eqb_eq in Hid.
    split; [reflexivity|]. split; [|split].
    + intros webinar E. injection E as <-. now split.
    + split; [now exists found | now exists found].
    + split; [|discriminate].
      intros Hnone. now destruct (Hnone found Hin).
  - split; [reflexivity|]. split; [|split].
    + discriminate.
    + split.
      * intros (webinar & Hin & Hid).
        pose proof (find_none _ _ Hfind webinar Hin) as Hno. cbn in Hno.
        apply String.eqb_neq in Hno. contradiction.
      * intros (webinar & E). discriminate.
    + split; [reflexivity|].
      intros _ webinar Hin.
      pose proof (find_none _ _ Hfind webinar Hin) as Hno. cbn in Hno.
      now apply String.eqb_neq.
Qed.

Lemma InMemory_findById_resolves_iff_witness :
  fst (InMemory_findById "webinar1"
         (mkInMemoryWebinarRepository
            [webinar1 (4 * day) 100; webinar1 (5 * day) 7]))
    = Resolved (webinar1 (4 * day) 100)
  /\ In (webinar1 (4 * day) 100)
        [webinar1 (4 * day) 100; webinar1 (5 * day) 7]
  /\ Webinar.id (webinar1 (4 * day) 100) = "webinar1"%string
  /\ fst (InMemory_findById "webinar2"
            (mkInMemoryWebinarRepository [webinar1 (4 * day) 100]))
     = Rejected (Error "Webinar not found.").
Proof.
  split; [reflexivity|].
  split; [|split].
  - apply (proj1 (proj2 (InMemory_findById_resolves_iff
                           (mkInMemoryWebinarRepository
                              [webinar1 (4 * day) 100; webinar1 (5 * day) 7])
                           "webinar1")) (webinar1 (4 * day) 100) eq_refl).
  - apply (proj1 (proj2 (InMemory_findById_resolves_iff
                           (mkInMemoryWebinarRepository
                              [webinar1 (4 * day) 100; webinar1 (5 * day) 7])
                           "webinar1")) (webinar1 (4 * day) 100) eq_refl).
  - apply (proj2 (proj2 (proj2 (InMemory_findById_resolves_iff
                                  (mkInMemoryWebinarRepository
                                     [webinar1 (4 * day) 100])
                                  "webinar2")))).
    intros webinar [<-|[]]. discriminate.
Defined.

(** X2.  [create] followed by [findById] in the in-memory repository: the
    identifier of the webinar created is found afterwards; it is the webinar
    created when the identifier was not in the database, and the webinar
    that was found before otherwise (the first one pushed is the one found,
    [create] replaces nothing); other identifiers are answered as before. *)
Theorem InMemory_create_then_findById
  (this : InMemoryWebinarRepository) (webinar : Webinar.t) :
  let this' := snd (InMemory_create webinar this) in
  fst (InMemory_create webinar this) = Resolved tt
  /\ (lookupWebinar this (Webinar.id webinar) = None ->
      InMemory_findById (Webinar.id webinar) this'
        = (Resolved webinar, this'))
  /\ (forall webinarId found,
        InMemory_findById webinarId this = (Resolved found, this) ->
        InMemory_findById webinarId this' = (Resolved found, this'))
  /\ (forall webinarId,
        webinarId <> Webinar.id webinar ->
        fst (InMemory_findById webinarId this')
          = fst (InMemory_findById webinarId this))
  /\ (exists found,
        InMemory_findById (Webinar.id webinar) this'
          = (Resolved found, this')
        /\ Webinar.id found = Webinar.id webinar).
Proof.
  unfold InMemory_create, InMemory_findById, lookupWebinar. cbn.
  split; [reflexivity|]. split; [|split; [|split]].
  - intros Hnone. rewrite find_pushed, Hnone, String.eqb_refl. reflexivity.
  - intros webinarId found Hfound. rewrite find_pushed.
    destruct (find _ (database this)) as [w|]; [|discriminate].
    now injection Hfound as ->.
  - intros webinarId Hother. rewrite find_pushed.
    destruct (find _ (database this)) as [w|]; [reflexivity|].
    apply not_eq_sym, String.eqb_neq in Hother. now rewrite Hother.
  - rewrite find_pushed.
    destruct (find _ (database this)) as [w|] eqn:Hfind.
    + exists w. split; [reflexivity|].
      apply find_some in Hfind. now apply String.eqb_eq.
    + rewrite String.eqb_refl. now exists webinar.
Qed.

Lemma InMemory_create_then_findById_witness :
  InMemory_findById "webinar1"
    (snd (InMemory_create (webinar1 (4 * day) 100)
            (mkInMemoryWebinarRepository [])))
  = (Resolved (webinar1 (4 * day) 100),
     snd (InMemory_create (webinar1 (4 * day) 100)
            (mkInMemoryWebinarRepository [])))
  /\ InMemory_findById "webinar1"
       (snd (InMemory_create (webinar1 (5 * day) 7)
               (mkInMemoryWebinarRepository [webinar1 (4 * day) 100])))
     = (Resolved (webinar1 (4 * day) 100),
        snd (InMemory_create (webinar1 (5 * day) 7)
               (mkInMemoryWebinarRepository [webinar1 (4 * day) 100]))).
Proof.
  split.
  - apply (proj1 (proj2 (InMemory_create_then_findById
                           (mkInMemoryWebinarRepository [])
                           (webinar1 (4 * day) 100)))).
    reflexivity.
  - apply (proj1 (proj2 (proj2 (InMemory_create_then_findById
                                  (mkInMemoryWebinarRepository
                                     [webinar1 (4 * day) 100])
                                  (webinar1 (5 * day) 7))))).
    reflexivity.
Defined.

(** X3.  [save] followed by [findByWebinarId] in the participation double:
    [save] always resolves; the participation saved comes last in the list
    of its own webinar; the lists of the other webinars are as before; and
    a list holds exactly the participations of the store that carry the
    identifier asked for. *)
Theorem save_then_findByWebinarId
  (this : FakeParticipationRepository) (participation : Participation.t) :
  let this' := snd (FakeParticipation_save participation this) in
  let listed := fun webinarId repository =>
    filter (fun p => String.eqb (Participation.webinarId p) webinarId)
           (participations repository) in
  fst (FakeParticipation_save participation this) = Resolved tt
  /\ (forall webinarId repository,
        FakeParticipation_findByWebinarId webinarId repository
          = (Resolved (listed webinarId repository), repository))
  /\ listed (Participation.webinarId participation) this'
     = listed (Participation.webinarId participation) this
       ++ [participation]
  /\ (forall webinarId,
        webinarId <> Participation.webinarId participation ->
        listed webinarId this' = listed webinarId this)
  /\ (forall webinarId repository p,
        In p (listed webinarId repository)
        <-> In p (participations repository)
            /\ Participation.webinarId p = webinarId).
Proof.
  cbn. split; [reflexivity|]. split; [reflexivity|].
  split; [|split].
  - rewrite filter_app. cbn. now rewrite String.eqb_refl.
  - intros webinarId Hother. rewrite filter_app. cbn.
    apply not_eq_sym, String.eqb_neq in Hother. rewrite Hother.
    apply app_nil_r.
  - intros webinarId repository p. rewrite filter_In.
    now rewrite String.eqb_eq.
Qed.

Lemma save_then_findByWebinarId_witness :
  filter (fun p => String.eqb (Participation.webinarId p) "webinar2")
    (participations
       (snd (FakeParticipation_save
               {| Participation.userId := "user1";
                  Participation.webinarId := "webinar1" |}
               (mkFakeParticipationRepository
                  [ {| Participation.userId := "user2";
                       Participation.webinarId := "webinar2" |} ]))))
  = [ {| Participation.userId := "user2";
         Participation.webinarId := "webinar2" |} ].
Proof.
  apply (proj1 (proj2 (proj2 (proj2
           (save_then_findByWebinarId
              (mkFakeParticipationRepository
                 [ {| Participation.userId := "user2";
                      Participation.webinarId := "webinar2" |} ])
              {| Participation.userId := "user1";
                 Participation.webinarId := "webinar1" |}))))
           "webinar2"%string).
  discriminate.
Defined.

(** X4.  [addUser] followed by [findById] in the user double: [findById]
    always resolves and leaves the double as it is; it answers [null]
    exactly when no user carries the identifier; after [addUser], the
    identifier of the user added is answered with that user when it was
    answered [null] before, and every user found before is still the one
    found. *)
Theorem addUser_then_findById
  (this : FakeUserRepository) (user : User.t) :
  (forall userId repository,
     FakeUser_findById userId repository
       = (Resolved (lookupUser repository userId), repository))
  /\ (forall userId repository,
        lookupUser repository userId = None
        <-> forall u, In u (users repository) -> User.id u <> userId)
  /\ (forall userId repository found,
        lookupUser repository userId = Some found ->
        In found (users repository) /\ User.id found = userId)
  /\ (lookupUser this (User.id user) = None ->
      lookupUser (addUser user this) (User.id user) = Some user)
  /\ (forall userId found,
        lookupUser this userId = Some found ->
        lookupUser (addUser user this) userId = Some found)
  /\ (forall userId,
        userId <> User.id user ->
        lookupUser (addUser user this) userId = lookupUser this userId).
Proof.
  unfold lookupUser, addUser. cbn.
  split; [reflexivity|]. split; [|split; [|split; [|split]]].
  - intros userId repository. split.
    + intros Hnone u Hin.
      pose proof (find_none _ _ Hnone u Hin) as Hno. cbn in Hno.
      now apply String.eqb_neq.
    + intros Hall.
      destruct (find _ (users repository)) as [u|] eqn:Hfind;
        [|reflexivity].
      apply find_some in Hfind. destruct Hfind as [Hin Hid].
      apply String.eqb_eq in Hid. now destruct (Hall u Hin).
  - intros userId repository found Hfind.
    apply find_some in Hfind. destruct Hfind as [Hin Hid].
    now apply String.eqb_eq in Hid.
  - intros Hnone. now rewrite find_pushed, Hnone, String.eqb_refl.
  - intros userId found Hfound. now rewrite find_pushed, Hfound.
  - intros userId Hother. rewrite find_pushed.
    destruct (find _ (users this)) as [u|]; [reflexivity|].
    apply not_eq_sym, String.eqb_neq in Hother. now rewrite Hother.
Qed.

Lemma addUser_then_findById_witness :
  lookupUser (addUser organizer1 (mkFakeUserRepository [user1]))
    "organizer1" = Some organizer1
  /\ lookupUser (addUser organizerNoEmail
                   (mkFakeUserRepository [organizer1]))
       "organizer1" = Some organizer1.
Proof.
  split.
  - apply (proj1 (proj2 (proj2 (proj2
             (addUser_then_findById (mkFakeUserRepository [user1])
                organizer1))))).
    reflexivity.
  - apply (proj1 (proj2 (proj2 (proj2 (proj2
             (addUser_then_findById (mkFakeUserRepository [organizer1])
                organizerNoEmail))))) "organizer1"%string organizer1).
    reflexivity.
Defined.

(** ** The use case as a whole *)

Lemma alreadyRegistered_iff_In store webinarId userId :
  alreadyRegistered store webinarId userId = true
  <-> In {| Participation.userId := userId;
            Participation.webinarId := webinarId |} store.
Proof.
  unfold alreadyRegistered. rewrite existsb_exists. split.
  - intros (p & Hin & Hid). apply filter_In in Hin.
    destruct Hin as [Hin Hwid].
    apply String.eqb_eq in Hid, Hwid. destruct p as [u w]. cbn in *.
    now subst.
  - intros Hin.
    exists {| Participation.userId := userId;
              Participation.webinarId := webinarId |}.
    rewrite filter_In. cbn.
    rewrite !String.eqb_refl. repeat split. exact Hin.
Qed.

(** Case analysis on an execution over the doubles: the webinar lookup,
    then every test of [execute] in turn. *)
Ltac run_execute this now request Hrun :=
  let webinar := fresh "webinar" in
  let Hw := fresh "Hw" in
  destruct (lookupWebinar (webinarRepository this) (webinarId request))
    as [webinar|] eqn:Hw;
  [ rewrite (execute_found now request webinar this Hw) in Hrun;
    destruct (alreadyRegistered
                (participations (participationRepository this))
                (webinarId request) (User.id (user request))) eqn:Hreg;
    [|destruct (isTooSoon webinar now) eqn:Hsoon;
      [|destruct (hasTooManySeats webinar) eqn:Hmany;
        [|destruct (hasNotEnoughSeats webinar) eqn:Hfew;
          [|destruct (lookupUser (userRepository this)
                        (Webinar.organizerId webinar))
              as [organizer|] eqn:Horg;
            [destruct (truthy (User.email organizer)) eqn:Hmail|]]]]]
  | rewrite (execute_absent now request this Hw) in Hrun ];
  cbn in Hrun; inversion Hrun; subst; clear Hrun.

(** X5.  The outcomes of [execute] over the doubles are closed.  The user
    repository and the webinar repository are never changed.  Either the
    call is rejected with [Error("Webinar not found.")] or with one of the
    four exceptions of the checks, and nothing changed; or it is rejected
    with [EmailNotFoundException], the new participation was appended to
    the store and no email was sent; or it resolves with the success
    response, the new participation was appended to the store and exactly
    one email was appended to the mailer. *)
Theorem execute_outcomes {rules : WebinarRules}
  (this : World) (now : Z) (request : Request) :
  let (result, this') := execute now request this in
  let saved :=
    participations (participationRepository this)
      ++ [ {| Participation.userId := User.id (user request);
              Participation.webinarId := webinarId request |} ] in
  userRepository this' = userRepository this
  /\ webinarRepository this' = webinarRepository this
  /\ ((exists e,
         result = Rejected e
         /\ In e [ Error "Webinar not found.";
                   UserIsAlreadyRegisteredException;
                   WebinarDatesTooSoonException;
                   WebinarTooManySeatsException;
                   WebinarNotEnoughSeatsException ]
         /\ this' = this)
      \/ (result = Rejected EmailNotFoundException
          /\ participations (participationRepository this') = saved
          /\ mailer this' = mailer this)
      \/ (result = Resolved {| success := true;
                               message := "User registered successfully" |}
          /\ participations (participationRepository this') = saved
          /\ exists notification,
               emails (mailer this')
                 = emails (mailer this) ++ [notification])).
Proof.
  destruct (execute now request this) as [result this'] eqn:Hrun.
  run_execute this now request Hrun; cbn.
  - split; [reflexivity|]. split; [reflexivity|]. left.
    exists UserIsAlreadyRegisteredException. cbn. tauto.
  - split; [reflexivity|]. split; [reflexivity|]. left.
    exists WebinarDatesTooSoonException. cbn. tauto.
  - split; [reflexivity|]. split; [reflexivity|]. left.
    exists WebinarTooManySeatsException. cbn. tauto.
  - split; [reflexivity|]. split; [reflexivity|]. left.
    exists WebinarNotEnoughSeatsException. cbn. tauto.
  - split; [reflexivity|]. split; [reflexivity|]. right. right.
    repeat split. now eexists.
  - split; [reflexivity|]. split; [reflexivity|]. right. left.
    repeat split.
  - split; [reflexivity|]. split; [reflexivity|]. right. left.
    repeat split.
  - split; [reflexivity|]. split; [reflexivity|]. left.
    exists (Error "Webinar not found."). cbn. tauto.
Qed.

(** X6.  Over the doubles, [execute] resolves exactly when the webinar is
    found, the user has no participation for it, none of the three
    predicates of the entity holds, and the organizer is found with a
    non-empty address; and the value it resolves with is always the success
    response. *)
Theorem execute_resolves_iff {rules : WebinarRules}
  (this : World) (now : Z) (request : Request) :
  ((exists response, fst (execute now request this) = Resolved response)
   <-> exists webinar organizer,
         lookupWebinar (webinarRepository this) (webinarId request)
           = Some webinar
         /\ alreadyRegistered
              (participations (participationRepository this))
              (webinarId request) (User.id (user request)) = false
         /\ isTooSoon webinar now = false
         /\ hasTooManySeats webinar = false
         /\ hasNotEnoughSeats webinar = false
         /\ lookupUser (userRepository this) (Webinar.organizerId webinar)
            = Some organizer
         /\ User.email organizer <> EmptyString)
  /\ (forall response,
        fst (execute now request this) = Resolved response ->
        response = {| success := true;
                      message := "User registered successfully" |}).
Proof.
  split; [split|].
  - intros (response & Hres).
    destruct (execute now request this) as [result this'] eqn:Hrun.
    cbn in Hres. subst result.
    run_execute this now request Hrun.
    exists webinar, organizer. apply truthy_true in Hmail.
    repeat split; assumption.
  - intros (webinar & organizer & Hw & Hreg & Hsoon & Hmany & Hfew
            & Horg & Hmail).
    apply truthy_true in Hmail.
    rewrite (execute_found now request webinar this Hw).
    rewrite Hreg, Hsoon, Hmany, Hfew, Horg, Hmail. cbn.
    now eexists.
  - intros response Hres.
    destruct (execute now request this) as [result this'] eqn:Hrun.
    cbn in Hres. subst result.
    run_execute this now request Hrun. reflexivity.
Qed.

Lemma execute_resolves_iff_witness :
  (exists response,
     fst (execute (rules := SpecWebinarRules) today (bookWebinar1 user1)
            (fixture [] [organizer1] [webinar1 (4 * day) 100]))
     = Resolved response)
  /\ registered = {| success := true;
                     message := "User registered successfully" |}.
Proof.
  split.
  - apply (proj1 (@execute_resolves_iff SpecWebinarRules
                    (fixture [] [organizer1] [webinar1 (4 * day) 100])
                    today (bookWebinar1 user1))).
    exists (webinar1 (4 * day) 100), organizer1.
    repeat split; try reflexivity. discriminate.
  - apply (proj2 (@execute_resolves_iff SpecWebinarRules
                    (fixture [] [organizer1] [webinar1 (4 * day) 100])
                    today (bookWebinar1 user1))).
    reflexivity.
Defined.

(** X7.  For a webinar that is found, [execute] over the doubles is
    rejected with [UserIsAlreadyRegisteredException] exactly when the store
    already holds the pair (user id, webinar id) of the request: a
    participation of the same user for another webinar, or of another user
    for the same webinar, does not count. *)
Theorem duplicate_exactly_when_pair_in_store {rules : WebinarRules}
  (this : World) (now : Z) (request : Request) (webinar : Webinar.t) :
  lookupWebinar (webinarRepository this) (webinarId request) = Some webinar ->
  fst (execute now request this) = Rejected UserIsAlreadyRegisteredException
  <-> In {| Participation.userId := User.id (user request);
            Participation.webinarId := webinarId request |}
         (participations (participationRepository this)).
Proof.
  intros Hfound. rewrite <- alreadyRegistered_iff_In.
  destruct (execute now request this) as [result this'] eqn:Hrun.
  run_execute this now request Hrun; cbn;
    split; intros E; try discriminate E; try reflexivity; congruence.
Qed.

Lemma duplicate_exactly_when_pair_in_store_witness :
  fst (execute (rules := SpecWebinarRules) today (bookWebinar1 user1)
         (fixture user1Registered [organizer1] [webinar1 (4 * day) 100]))
    = Rejected UserIsAlreadyRegisteredException
  /\ fst (execute (rules := SpecWebinarRules) today (bookWebinar1 user1)
            (fixture
               [ {| Participation.userId := "user1";
                    Participation.webinarId := "webinar2" |};
                 {| Participation.userId := "user2";
                    Participation.webinarId := "webinar1" |} ]
               [organizer1] [webinar1 (4 * day) 100]))
     <> Rejected UserIsAlreadyRegisteredException.
Proof.
  split.
  - apply (proj2 (@duplicate_exactly_when_pair_in_store SpecWebinarRules
                    (fixture user1Registered [organizer1]
                             [webinar1 (4 * day) 100])
                    today (bookWebinar1 user1) (webinar1 (4 * day) 100)
                    eq_refl)).
    left. reflexivity.
  - intros Hdup.
    apply (proj1 (@duplicate_exactly_when_pair_in_store SpecWebinarRules
                    (fixture
                       [ {| Participation.userId := "user1";
                            Participation.webinarId := "webinar2" |};
                         {| Participation.userId := "user2";
                            Participation.webinarId := "webinar1" |} ]
                       [organizer1] [webinar1 (4 * day) 100])
                    today (bookWebinar1 user1) (webinar1 (4 * day) 100)
                    eq_refl)) in Hdup.
    destruct Hdup as [E|[E|[]]]; discriminate E.
Defined.

(** X8.  [execute] keeps the pairs of the store unique: over the doubles,
    a store without two equal participations is still without two equal
    participations after any execution, whatever its outcome. *)
Theorem execute_keeps_pairs_unique {rules : WebinarRules}
  (this : World) (now : Z) (request : Request) :
  NoDup (participations (participationRepository this)) ->
  NoDup (participations
           (participationRepository (snd (execute now request this)))).
Proof.
  intros Hunique.
  destruct (execute now request this) as [result this'] eqn:Hrun.
  assert (Hsaved :
    alreadyRegistered (participations (participationRepository this))
      (webinarId request) (User.id (user request)) = false ->
    NoDup (participations (participationRepository this)
             ++ [newParticipationOf request])).
  { intros Hreg. apply NoDup_app.
    - exact Hunique.
    - constructor; [intros [] | constructor].
    - intros p Hin [<-|[]].
      apply alreadyRegistered_iff_In in Hin. congruence. }
  run_execute this now request Hrun; cbn; auto.
Qed.

Lemma execute_keeps_pairs_unique_witness :
  NoDup (participations
           (participationRepository
              (snd (execute (rules := SpecWebinarRules) today
                      (bookWebinar1 user1) fullWebinar)))).
Proof.
  apply (@execute_keeps_pairs_unique SpecWebinarRules fullWebinar today
           (bookWebinar1 user1)).
  cbn. constructor; [intros [] | constructor].
Defined.

(** X9.  Over the doubles, once an execution has resolved, or has been
    rejected with [EmailNotFoundException], the same request at any later
    time is rejected with [UserIsAlreadyRegisteredException] and changes
    nothing, whatever the entity's predicates answer then. *)
Theorem repeated_request_is_rejected {rules : WebinarRules}
  (this this' : World) (now later : Z) (request : Request)
  (result : Settled Response) :
  execute now request this = (result, this') ->
  (exists response, result = Resolved response)
  \/ result = Rejected EmailNotFoundException ->
  execute later request this'
    = (Rejected UserIsAlreadyRegisteredException, this').
Proof.
  intros Hrun Hpast.
  apply (second_attempt_is_rejected this this' now later request result
           Hrun).
  run_execute this now request Hrun; cbn; try reflexivity;
    destruct Hpast as [[response E]|E]; discriminate E.
Qed.

Lemma repeated_request_is_rejected_witness :
  execute (rules := SpecWebinarRules) (today + 10 * day)
    (bookWebinar1 user1)
    (snd (execute (rules := SpecWebinarRules) today (bookWebinar1 user1)
            (fixture [] [organizer1] [webinar1 (4 * day) 100])))
  = (Rejected UserIsAlreadyRegisteredException,
     snd (execute (rules := SpecWebinarRules) today (bookWebinar1 user1)
            (fixture [] [organizer1] [webinar1 (4 * day) 100]))).
Proof.
  apply (@repeated_request_is_rejected SpecWebinarRules
           (fixture [] [organizer1] [webinar1 (4 * day) 100])
           (snd (execute (rules := SpecWebinarRules) today
                   (bookWebinar1 user1)
                   (fixture [] [organizer1] [webinar1 (4 * day) 100])))
           today (today + 10 * day) (bookWebinar1 user1)
           (Resolved registered)).
  - reflexivity.
  - left. now exists registered.
Defined.

Lemma alreadyRegistered_pushed store p webinarId userId :
  alreadyRegistered (store ++ [p]) webinarId userId
  = alreadyRegistered store webinarId userId
    || (String.eqb (Participation.webinarId p) webinarId
        && String.eqb (Participation.userId p) userId).
Proof.
  unfold alreadyRegistered. rewrite filter_app, existsb_app. cbn.
  destruct (String.eqb (Participation.webinarId p) webinarId); cbn.
  - now rewrite orb_false_r.
  - reflexivity.
Qed.

(** The result of [execute] over the doubles depends on the webinars, on
    the users and on the answer of the duplicate check only. *)
Lemma execute_result_depends {rules : WebinarRules}
  (this other : World) (now : Z) (request : Request) :
  webinarRepository other = webinarRepository this ->
  userRepository other = userRepository this ->
  alreadyRegistered (participations (participationRepository other))
    (webinarId request) (User.id (user request))
  = alreadyRegistered (participations (participationRepository this))
      (webinarId request) (User.id (user request)) ->
  fst (execute now request other) = fst (execute now request this).
Proof.
  intros Hwebinars Husers Hdup.
  destruct (lookupWebinar (webinarRepository this) (webinarId request))
    as [webinar|] eqn:Hw.
  - rewrite (execute_found now request webinar this Hw).
    rewrite <- Hwebinars in Hw.
    rewrite (execute_found now request webinar other Hw).
    rewrite Hdup, Husers.
    destruct (alreadyRegistered
                (participations (participationRepository this))
                (webinarId request) (User.id (user request)));
      [reflexivity|].
    destruct (isTooSoon webinar now); [reflexivity|].
    destruct (hasTooManySeats webinar); [reflexivity|].
    destruct (hasNotEnoughSeats webinar); [reflexivity|].
    destruct (lookupUser _ _) as [organizer|]; [|reflexivity].
    destruct (truthy _); reflexivity.
  - rewrite (execute_absent now request this Hw).
    rewrite <- Hwebinars in Hw.
    now rewrite (execute_absent now request other Hw).
Qed.

(** X10.  Bookings of different pairs do not interfere: over the doubles,
    whatever an execution for one request did, a request for another pair
    (another user, or another webinar) has afterwards the result it would
    have had before. *)
Theorem other_bookings_do_not_interfere {rules : WebinarRules}
  (this this' : World) (now later : Z) (first second : Request)
  (result : Settled Response) :
  execute now first this = (result, this') ->
  (User.id (user first) <> User.id (user second)
   \/ webinarId first <> webinarId second) ->
  fst (execute later second this') = fst (execute later second this).
Proof.
  intros Hrun Hother.
  assert (Hpushed :
    alreadyRegistered
      (participations (participationRepository this)
         ++ [newParticipationOf first])
      (webinarId second) (User.id (user second))
    = alreadyRegistered (participations (participationRepository this))
        (webinarId second) (User.id (user second))).
  { rewrite alreadyRegistered_pushed. cbn.
    destruct Hother as [Hu|Hw].
    - apply String.eqb_neq in Hu. rewrite Hu, andb_false_r.
      apply orb_false_r.
    - apply String.eqb_neq in Hw. rewrite Hw. apply orb_false_r. }
  apply execute_result_depends;
    run_execute this now first Hrun; cbn; try reflexivity; exact Hpushed.
Qed.

Lemma other_bookings_do_not_interfere_witness :
  fst (execute (rules := SpecWebinarRules) today (bookWebinar1 user2)
         (snd (execute (rules := SpecWebinarRules) today
                 (bookWebinar1 user1)
                 (fixture [] [organizer1] [webinar1 (4 * day) 1]))))
  = fst (execute (rules := SpecWebinarRules) today (bookWebinar1 user2)
           (fixture [] [organizer1] [webinar1 (4 * day) 1])).
Proof.
  apply (@other_bookings_do_not_interfere SpecWebinarRules
           (fixture [] [organizer1] [webinar1 (4 * day) 1])
           (snd (execute (rules := SpecWebinarRules) today
                   (bookWebinar1 user1)
                   (fixture [] [organizer1] [webinar1 (4 * day) 1])))
           today today (bookWebinar1 user1) (bookWebinar1 user2)
           (Resolved registered)).
  - reflexivity.
  - left. discriminate.
Defined.

(** X11.  The webinar double of the tests and the in-memory adapter are
    interchangeable under [execute]: holding the same webinars, they lead
    to the same final participations, users, webinars and emails, and to
    the same result, except that for a webinar that is not found the
    adapter's message is "Webinar not found." and the double's is
    "Webinar not found". *)
Theorem fake_webinar_repository_agrees {rules : WebinarRules}
  (this : World) (now : Z) (request : Request) :
  let (result, this') := execute now request this in
  let (fakeResult, fakeThis') :=
    execute now request (overFakeWebinarRepository this) in
  fakeThis' = overFakeWebinarRepository this'
  /\ match lookupWebinar (webinarRepository this) (webinarId request) with
     | Some _ => fakeResult = result
     | None => result = Rejected (Error "Webinar not found.")
               /\ fakeResult = Rejected (Error "Webinar not found")
     end.
Proof.
  destruct (lookupWebinar (webinarRepository this) (webinarId request))
    as [webinar|] eqn:Hw.
  - rewrite (execute_found now request webinar this Hw).
    rewrite (execute_lookup_resolved now request
               (overFakeWebinarRepository this) webinar
               (mkFakeWebinarRepository (database (webinarRepository this))))
      by (apply FakeWebinar_findById_found; exact Hw).
    cbv zeta. rewrite sendEmailToOrganizer_steps.
    destruct this as [[store] [people] [db] [sent]]. cbn.
    unfold lookupUser. cbn.
    repeat (match goal with
            | |- context [if ?b then _ else _] => destruct b
            | |- context [match find ?f ?l with _ => _ end] =>
                destruct (find f l)
            end; cbn);
      now split.
  - rewrite (execute_absent now request this Hw).
    rewrite (execute_lookup_rejected now request
               (overFakeWebinarRepository this)
               (Error "Webinar not found")
               (mkFakeWebinarRepository (database (webinarRepository this))))
      by (apply FakeWebinar_findById_absent; exact Hw).
    destruct this as [[store] [people] [db] [sent]]. now cbn.
Qed.

(** X12.  [execute] reads the requesting user through its identifier only,
    but for the text of the email: over the doubles, two users with the
    same identifier get the same result and leave the same participations,
    whatever their addresses, an empty one included. *)
Theorem execute_reads_only_the_user_id {rules : WebinarRules}
  (this : World) (now : Z) (webinarId : string) (user other : User.t) :
  User.id user = User.id other ->
  fst (execute now {| webinarId := webinarId; user := user |} this)
  = fst (execute now {| webinarId := webinarId; user := other |} this)
  /\ participationRepository
       (snd (execute now {| webinarId := webinarId; user := user |} this))
     = participationRepository
         (snd (execute now {| webinarId := webinarId; user := other |}
                 this)).
Proof.
  intros Hid.
  destruct (lookupWebinar (webinarRepository this) webinarId)
    as [webinar|] eqn:Hw.
  - rewrite (execute_found now (mkRequest webinarId user) webinar this Hw).
    rewrite (execute_found now (mkRequest webinarId other) webinar this Hw).
    unfold newParticipationOf. cbn. rewrite Hid.
    destruct (alreadyRegistered _ _ _); [now split|].
    destruct (isTooSoon webinar now); [now split|].
    destruct (hasTooManySeats webinar); [now split|].
    destruct (hasNotEnoughSeats webinar); [now split|].
    destruct (lookupUser _ _) as [organizer|]; [|now split].
    destruct (truthy _); now split.
  - rewrite (execute_absent now (mkRequest webinarId user) this Hw).
    rewrite (execute_absent now (mkRequest webinarId other) this Hw).
    now split.
Qed.

Lemma execute_reads_only_the_user_id_witness :
  fst (execute (rules := SpecWebinarRules) today
         {| webinarId := "webinar1"; user := user1 |}
         (fixture [] [organizer1] [webinar1 (4 * day) 100]))
  = fst (execute (rules := SpecWebinarRules) today
           {| webinarId := "webinar1";
              user := {| User.id := "user1"; User.email := "";
                         User.password := "" |} |}
           (fixture [] [organizer1] [webinar1 (4 * day) 100])).
Proof.
  apply (@execute_reads_only_the_user_id SpecWebinarRules
           (fixture [] [organizer1] [webinar1 (4 * day) 100]) today
           "webinar1"%string user1
           {| User.id := "user1"; User.email := ""; User.password := "" |}).
  reflexivity.
Defined.

(** X13.  [sendEmailToOrganizer] over the doubles changes neither the
    participations, nor the users, nor the webinars.  Either it resolves,
    and then some user of the repository carries the organizer identifier
    of the webinar and has a non-empty address, and the one email appended
    to the mailer is addressed to that user with the subject
    "New participant"; or it is rejected with [EmailNotFoundException] and
    the mailer is unchanged. *)
Theorem sendEmailToOrganizer_outcomes
  (this : World) (webinar : Webinar.t) (user : User.t) :
  let (result, this') := sendEmailToOrganizer webinar user this in
  participationRepository this' = participationRepository this
  /\ userRepository this' = userRepository this
  /\ webinarRepository this' = webinarRepository this
  /\ ((result = Resolved tt
       /\ exists organizer,
            In organizer (users (userRepository this))
            /\ User.id organizer = Webinar.organizerId webinar
            /\ User.email organizer <> EmptyString
            /\ emails (mailer this')
               = emails (mailer this)
                 ++ [ {| to := User.email organizer;
                         subject := "New participant";
                         body := String.append "New participant for webinar "
                                   (String.append (Webinar.title webinar)
                                      (String.append ": "
                                         (User.email user))) |} ])
      \/ (result = Rejected EmailNotFoundException
          /\ mailer this' = mailer this)).
Proof.
  rewrite sendEmailToOrganizer_steps.
  destruct (lookupUser (userRepository this) (Webinar.organizerId webinar))
    as [organizer|] eqn:Horg.
  - destruct (truthy (User.email organizer)) eqn:Hmail; cbn.
    + repeat (split; [reflexivity|]). left. split; [reflexivity|].
      exists organizer.
      apply truthy_true in Hmail.
      unfold lookupUser in Horg. apply find_some in Horg.
      destruct Horg as [Hin Hid]. apply String.eqb_eq in Hid.
      repeat split; assumption.
    + repeat (split; [reflexivity|]). right. now split.
  - repeat (split; [reflexivity|]). right. now split.
Qed.
